(** * keypress: a debounced line prompt and a non-blocking key reader

    A shallow embedding of [minimum_interval.py] and [key_reader.py].

    Python floats are IEEE 754 binary64 numbers, which is what Rocq's
    primitive [float] is, so timestamps and intervals are modelled as
    [float] and compared with the kernel's own operations.  The outside
    world (pending input, what was printed, function attributes, the
    terminal's mode) is threaded explicitly through every operation. *)

From Stdlib Require Import List String Ascii Bool Arith ZArith Lia Floats.
Import ListNotations.

Set Warnings "-inexact-float,-abstract-large-number".

Local Open Scope string_scope.
Local Open Scope list_scope.

(** ** Outcomes of a Python call *)

Inductive exn : Type :=
| EOFError
| AttributeError
| IndexError
| UnicodeDecodeError
| ValueError
| termios_error
| KeyboardInterrupt
| Exception (msg : string).

(** A call returns a value, raises, or never comes back because it waits
    for input that is not there. *)
Inductive outcome (A : Type) : Type :=
| Returns (a : A)
| Raises (e : exn)
| Blocks.

Arguments Returns {A} a.
Arguments Raises {A} e.
Arguments Blocks {A}.

Definition is_return {A} (r : outcome A) : bool :=
  match r with
  | Returns _ => true
  | _ => false
  end.

(** ** minimum_interval.py *)

Module MinimumInterval.

(** One line handed over by [input(prompt)], together with the reading
    [time.time()] gives on the statement that follows it. *)
Record submission : Type := Submission {
  text : string;
  stamp : float
}.

(** The part of the process [wait_for_enter] touches.  [input_time] is
    the function attribute [wait_for_enter.input_time]: [None] while the
    attribute does not exist, [Some None] while it holds Python's [None],
    [Some (Some t)] once it holds a timestamp. *)
Record world : Type := World {
  stdin : list submission;
  stdout : list string;
  input_time : option (option float)
}.

(** Lines 5-6: create the attribute when it is missing. *)
Definition init_attr (a : option (option float)) : option float :=
  match a with
  | None => None
  | Some v => v
  end.

(** Line 11, with Python's left-to-right short-circuit [or]: the
    subtraction is only evaluated when [previous_time] is a timestamp. *)
Definition accepts (previous_time : option float) (text : string)
           (now minimum_interval : float) : bool :=
  match previous_time with
  | None => true
  | Some p =>
      (0 <? String.length text)%nat
      || (minimum_interval <=? now - p)%float
  end.

(** Lines 7-12.  Every turn of the [while True] loop consumes one pending
    line, so the loop is a structural recursion on the pending input;
    [input] raises [EOFError] when nothing is left, after having written
    the prompt. *)
Fixpoint loop (prompt : string) (minimum_interval : float)
         (pending : list submission) (out : list string)
         (attr : option float) {struct pending} : outcome string * world :=
  match pending with
  | [] => (Raises EOFError, World [] (out ++ [prompt]) (Some attr))
  | s :: rest =>
      let text := text s in
      let out := out ++ [prompt] in
      let previous_time := attr in
      let attr := Some (stamp s) in
      if accepts previous_time text (stamp s) minimum_interval
      then (Returns text, World rest out (Some attr))
      else loop prompt minimum_interval rest out attr
  end.

Definition wait_for_enter (prompt : string) (minimum_interval : float)
           (w : world) : outcome string * world :=
  loop prompt minimum_interval (stdin w) (stdout w)
       (init_attr (input_time w)).

(** The defaults of the signature: [prompt = ""], [minimum_interval = 0.8]. *)
Definition default_prompt : string := "".
Definition default_minimum_interval : float := 0.8%float.

(** A process that has not called [wait_for_enter] yet. *)
Definition fresh (pending : list submission) : world :=
  World pending [] None.

(** Successive calls made by one process, each with its own arguments,
    as the example loop under [__main__] makes them. *)
Fixpoint session (calls : list (string * float)) (w : world)
  : list (outcome string) * world :=
  match calls with
  | [] => ([], w)
  | (prompt, minimum_interval) :: calls =>
      let (r, w1) := wait_for_enter prompt minimum_interval w in
      let (rs, w2) := session calls w1 in
      (r :: rs, w2)
  end.

(** The attribute holds a timestamp (it exists and is not [None]). *)
Definition has_timestamp (w : world) : bool :=
  match input_time w with
  | Some (Some _) => true
  | _ => false
  end.

(** The attribute after the attempts [consumed] have been read one after
    the other, starting from [attr]: each attempt overwrites it. *)
Definition stamped (consumed : list submission) (attr : option float)
  : option float :=
  fold_left (fun _ s => Some (stamp s)) consumed attr.

End MinimumInterval.

(** ** key_reader.py *)

Module KeyReader.

(** A Python [str] of length one, as its code point. *)
Definition char : Type := N.

(** A Python [str], as the list of its code points: [[]] is the empty
    string, [[c]] a string of length one. *)
Definition str : Type := list char.

(** What [termios.tcgetattr] returns:
    [[iflag, oflag, cflag, lflag, ispeed, ospeed, cc]]. *)
Record termios_attrs : Type := Attrs {
  iflag : Z;
  oflag : Z;
  cflag : Z;
  lflag : Z;
  ispeed : Z;
  ospeed : Z;
  cc : list Z
}.

(** The [termios] constants [tty.setcbreak] uses; their values depend on
    the operating system. *)
Record termios_consts : Type := Consts {
  ECHO : Z;
  ICANON : Z;
  VMIN : nat;
  VTIME : nat
}.

Definition linux_consts : termios_consts := Consts 8 2 6 5.
Definition darwin_consts : termios_consts := Consts 8 256 16 17.

(** What is fixed when the process starts: [sys.platform], whether file
    descriptor 0 is a terminal, and the platform's constants. *)
Record host : Type := Host {
  sys_platform : string;
  stdin_isatty : bool;
  consts : termios_consts
}.

(** The [when] argument of [termios.tcsetattr]. *)
Inductive when : Type := TCSANOW | TCSADRAIN | TCSAFLUSH.

(** The objects [select.select] is asked about: the only one the reader
    ever names is [sys.stdin]. *)
Inductive stream : Type := sys_stdin.

Definition stream_eqb (a b : stream) : bool :=
  match a, b with
  | sys_stdin, sys_stdin => true
  end.

(** The environment of a reader.
    - [tty_attrs]: the mode of the terminal behind file descriptor 0;
    - [tty_queue]: the bytes the operating system holds ready to be read
      from file descriptor 0, oldest first (on win32: the bytes of the
      console's pending key events, which [kbhit] and [getch] look at);
    - [stdin_buffer]: the characters the text stream [sys.stdin] has
      already fetched from file descriptor 0, decoded, and not yet handed
      out;
    - [stdout]: the lines printed so far;
    - [stdin_partial]: the bytes of a character of which the text
      stream's decoder has seen the beginning only;
    - [stdin_eof]: the other side of file descriptor 0 is closed (a pipe
      whose writer is gone, a file, a terminal that hung up), so that a
      read finds the end of input once the queue is empty;
    - [waited]: the lengths, in seconds, of the waits the process made
      ([select] with a timeout and nothing ready, [time.sleep]).
    Input arrives only between operations, never during one. *)
Record world : Type := MkWorld {
  tty_attrs : termios_attrs;
  tty_queue : list N;
  stdin_buffer : list char;
  stdout : list string;
  stdin_partial : list N;
  stdin_eof : bool;
  waited : list float
}.

(** An environment whose text stream holds no unfinished character, whose
    standard input is still open and in which nothing was waited for. *)
Definition World (a : termios_attrs) (q : list N) (b : list char)
           (out : list string) : world :=
  MkWorld a q b out [] false [].

Definition with_stdout (w : world) (out : list string) : world :=
  MkWorld (tty_attrs w) (tty_queue w) (stdin_buffer w) out
          (stdin_partial w) (stdin_eof w) (waited w).

Definition with_tty (w : world) (a : termios_attrs) (q : list N) : world :=
  MkWorld a q (stdin_buffer w) (stdout w)
          (stdin_partial w) (stdin_eof w) (waited w).

Definition with_queue (w : world) (q : list N) : world :=
  with_tty w (tty_attrs w) q.

Definition with_stream (w : world) (q : list N) (b : list char)
           (p : list N) : world :=
  MkWorld (tty_attrs w) q b (stdout w) p (stdin_eof w) (waited w).

Definition with_wait (w : world) (seconds : float) : world :=
  MkWorld (tty_attrs w) (tty_queue w) (stdin_buffer w) (stdout w)
          (stdin_partial w) (stdin_eof w) (waited w ++ [seconds]).

(** The fields of a [KeyReader] object; [old_settings] is [None] while
    the attribute has not been assigned. *)
Record KeyReader : Type := Reader {
  verbose : bool;
  old_settings : option termios_attrs
}.

Record state : Type := State {
  self : KeyReader;
  env : world
}.

(** Code that runs against a reader and its environment; what it changed
    before raising stays changed. *)
Definition M (A : Type) : Type := state -> outcome A * state.

Definition ret {A} (a : A) : M A := fun st => (Returns a, st).

Definition bind {A B} (m : M A) (k : A -> M B) : M B :=
  fun st =>
    match m st with
    | (Returns a, st1) => k a st1
    | (Raises e, st1) => (Raises e, st1)
    | (Blocks, st1) => (Blocks, st1)
    end.

Definition raise {A} (e : exn) : M A := fun st => (Raises e, st).

(** Waiting for input that does not come. *)
Definition block {A} : M A := fun st => (Blocks, st).

(** Running something and ignoring what it raises, as [try: ... except:
    pass] does, and as Python does with [__del__]. *)
Definition attempt {A} (m : M A) : M unit :=
  fun st =>
    match m st with
    | (Blocks, st1) => (Blocks, st1)
    | (_, st1) => (Returns tt, st1)
    end.

Declare Scope py_scope.
Delimit Scope py_scope with py.
Notation "x <- m ;; k" := (bind m (fun x => k))
  (at level 61, m at next level, right associativity) : py_scope.
Notation "m ;; k" := (bind m (fun _ => k))
  (at level 61, right associativity) : py_scope.
Local Open Scope py_scope.

Definition get_env : M world := fun st => (Returns (env st), st).
Definition put_env (w : world) : M unit :=
  fun st => (Returns tt, State (self st) w).

Definition get_verbose : M bool :=
  fun st => (Returns (verbose (self st)), st).

(** [self.old_settings], which raises when the attribute is missing. *)
Definition get_old_settings : M termios_attrs :=
  fun st =>
    match old_settings (self st) with
    | Some a => (Returns a, st)
    | None => (Raises AttributeError, st)
    end.

Definition set_old_settings (a : termios_attrs) : M unit :=
  fun st => (Returns tt, State (Reader (verbose (self st)) (Some a)) (env st)).

Definition print (line : string) : M unit :=
  w <- get_env ;;
  put_env (with_stdout w (stdout w ++ [line])).

(** [l[i] = v] on a Python list. *)
Fixpoint list_assign (l : list Z) (i : nat) (v : Z) : option (list Z) :=
  match l, i with
  | [], _ => None
  | _ :: t, O => Some (v :: t)
  | x :: t, S i => option_map (cons x) (list_assign t i v)
  end.

(** *** The decoder of the text stream

    [sys.stdin] decodes what it fetches with an incremental UTF-8 decoder
    and [errors='strict'], Python's setting for standard input under a
    UTF-8 locale; on POSIX it translates no newlines. *)

Definition continuation (b : N) : bool := (128 <=? b)%N && (b <=? 191)%N.

(** The second byte a three-byte sequence allows after its first (no
    overlong forms, no surrogates). *)
Definition second_of_three (b0 b1 : N) : bool :=
  if (b0 =? 224)%N then (160 <=? b1)%N && (b1 <=? 191)%N
  else if (b0 =? 237)%N then (128 <=? b1)%N && (b1 <=? 159)%N
  else continuation b1.

(** The second byte a four-byte sequence allows after its first (no
    overlong forms, nothing above U+10FFFF). *)
Definition second_of_four (b0 b1 : N) : bool :=
  if (b0 =? 240)%N then (144 <=? b1)%N && (b1 <=? 191)%N
  else if (b0 =? 244)%N then (128 <=? b1)%N && (b1 <=? 143)%N
  else continuation b1.

Definition low6 (b : N) : N := N.land b 63.

Definition code2 (b0 b1 : N) : char :=
  N.lor (N.shiftl (N.land b0 31) 6) (low6 b1).

Definition code3 (b0 b1 b2 : N) : char :=
  N.lor (N.shiftl (N.land b0 15) 12)
        (N.lor (N.shiftl (low6 b1) 6) (low6 b2)).

Definition code4 (b0 b1 b2 b3 : N) : char :=
  N.lor (N.shiftl (N.land b0 7) 18)
        (N.lor (N.shiftl (low6 b1) 12)
               (N.lor (N.shiftl (low6 b2) 6) (low6 b3))).

(** What [decoder.decode(data)] gives: the characters of the complete
    sequences and the bytes of an unfinished last one, which the decoder
    keeps; or [UnicodeDecodeError], whatever came before the bad byte. *)
Inductive decoded : Type :=
| Decoded (chars : list char) (unfinished : list N)
| Undecodable.

Definition push (c : char) (d : decoded) : decoded :=
  match d with
  | Decoded chars unfinished => Decoded (c :: chars) unfinished
  | Undecodable => Undecodable
  end.

Fixpoint utf8_decode (data : list N) : decoded :=
  match data with
  | [] => Decoded [] []
  | b0 :: t0 =>
      if (b0 <? 128)%N then push b0 (utf8_decode t0)
      else if (b0 <? 194)%N then Undecodable
      else if (b0 <? 224)%N then
        match t0 with
        | [] => Decoded [] data
        | b1 :: t1 =>
            if continuation b1 then push (code2 b0 b1) (utf8_decode t1)
            else Undecodable
        end
      else if (b0 <? 240)%N then
        match t0 with
        | [] => Decoded [] data
        | b1 :: t1 =>
            if second_of_three b0 b1 then
              match t1 with
              | [] => Decoded [] data
              | b2 :: t2 =>
                  if continuation b2
                  then push (code3 b0 b1 b2) (utf8_decode t2)
                  else Undecodable
              end
            else Undecodable
        end
      else if (b0 <? 245)%N then
        match t0 with
        | [] => Decoded [] data
        | b1 :: t1 =>
            if second_of_four b0 b1 then
              match t1 with
              | [] => Decoded [] data
              | b2 :: t2 =>
                  if continuation b2 then
                    match t2 with
                    | [] => Decoded [] data
                    | b3 :: t3 =>
                        if continuation b3
                        then push (code4 b0 b1 b2 b3) (utf8_decode t3)
                        else Undecodable
                    end
                  else Undecodable
              end
            else Undecodable
        end
      else Undecodable
  end.

(** The text stream fetches from the file descriptor by chunks. *)
Definition CHUNK_SIZE : nat := 8192.

(** What [sys.stdin.read(1)] comes to when the stream holds no decoded
    character: it reads a chunk from the file descriptor and decodes it
    together with what the decoder kept, again and again until a
    character is there.  An empty read is the end of input, where an
    unfinished character is an error; with nothing to read and the input
    still open, the read waits. *)
Inductive fetched : Type :=
| Got (c : char) (held : list char) (unfinished : list N) (queue : list N)
| End_of_input
| Bad (unfinished : list N) (queue : list N)
| Waits.

(** Every turn but the last takes at least one byte from the queue, so
    more turns than the queue has bytes are never needed; [fuel] is that
    bound. *)
Fixpoint fetch (fuel : nat) (queue unfinished : list N) (eof : bool)
  : fetched :=
  match fuel with
  | O => Waits
  | S fuel =>
      match firstn CHUNK_SIZE queue with
      | [] =>
          if eof
          then match unfinished with
               | [] => End_of_input
               | _ :: _ => Bad unfinished []
               end
          else Waits
      | chunk =>
          let queue' := skipn CHUNK_SIZE queue in
          match utf8_decode (unfinished ++ chunk) with
          | Undecodable => Bad unfinished queue'
          | Decoded [] unfinished' => fetch fuel queue' unfinished' eof
          | Decoded (c :: held) unfinished' => Got c held unfinished' queue'
          end
      end
  end.

Section Host.
Variable h : host.

Definition is_win32 : bool := (sys_platform h =? "win32")%string.

(** *** The library calls the reader makes *)

Definition termios_tcgetattr : M termios_attrs :=
  if stdin_isatty h
  then w <- get_env ;; ret (tty_attrs w)
  else raise termios_error.

(** [TCSAFLUSH] also throws away the input the terminal holds. *)
Definition termios_tcsetattr (wh : when) (a : termios_attrs) : M unit :=
  if stdin_isatty h
  then
    w <- get_env ;;
    put_env (with_tty w a
                      (match wh with TCSAFLUSH => [] | _ => tty_queue w end))
  else raise termios_error.

(** [tty.setcbreak(fd)], whose [when] defaults to [TCSAFLUSH]:
    [mode[LFLAG] &= ~(ECHO | ICANON); mode[CC][VMIN] = 1;
     mode[CC][VTIME] = 0]. *)
Definition tty_setcbreak : M unit :=
  mode <- termios_tcgetattr ;;
  let k := consts h in
  let lflag' := Z.land (lflag mode) (Z.lnot (Z.lor (ECHO k) (ICANON k))) in
  match list_assign (cc mode) (VMIN k) 1 with
  | None => raise IndexError
  | Some cc1 =>
      match list_assign cc1 (VTIME k) 0 with
      | None => raise IndexError
      | Some cc2 =>
          termios_tcsetattr TCSAFLUSH
            (Attrs (iflag mode) (oflag mode) (cflag mode) lflag'
                   (ispeed mode) (ospeed mode) cc2)
      end
  end.

(** Readiness is a fact about the file descriptor: a read of it would
    not wait, because bytes are there or because the input is at its end.
    [select] asks the operating system, which knows nothing of what the
    text stream holds. *)
Definition readable (w : world) (s : stream) : bool :=
  match s with
  | sys_stdin =>
      match tty_queue w with
      | [] => stdin_eof w
      | _ :: _ => true
      end
  end.

(** [select.select(rlist, [], [], timeout)].  A negative timeout is
    refused.  What is ready is returned at once.  With nothing ready the
    call waits: for ever without a timeout, else for [timeout] seconds
    (not at all when it is 0), and then returns nothing. *)
Definition select_select (rlist : list stream) (timeout : option float)
  : M (list stream * list stream * list stream) :=
  match timeout with
  | Some t => if (t <? 0)%float then raise ValueError else ret tt
  | None => ret tt
  end ;;
  w <- get_env ;;
  match filter (readable w) rlist, timeout with
  | [], None => block
  | [], Some t =>
      (if (0 <? t)%float then put_env (with_wait w t) else ret tt) ;;
      ret ([], [], [])
  | ready, _ => ret (ready, [], [])
  end.

(** [sys.stdin.read(1)]: a character the stream already holds if there
    is one, otherwise what fetching from the file descriptor gives; the
    stream keeps the characters that were not asked for.  At the end of
    input the result is the empty string. *)
Definition stdin_read1 : M str :=
  w <- get_env ;;
  match stdin_buffer w with
  | c :: held =>
      put_env (with_stream w (tty_queue w) held (stdin_partial w)) ;;
      ret [c]
  | [] =>
      match fetch (S (List.length (tty_queue w))) (tty_queue w)
                  (stdin_partial w) (stdin_eof w) with
      | Got c held unfinished queue =>
          put_env (with_stream w queue held unfinished) ;;
          ret [c]
      | End_of_input => ret []
      | Bad unfinished queue =>
          put_env (with_stream w queue [] unfinished) ;;
          raise UnicodeDecodeError
      | Waits => block
      end
  end.

(** [msvcrt.kbhit()] and [msvcrt.getch()], which waits for a key. *)
Definition kbhit : M bool :=
  w <- get_env ;;
  ret (match tty_queue w with [] => false | _ :: _ => true end).

Definition getch : M N :=
  w <- get_env ;;
  match tty_queue w with
  | [] => block
  | b :: rest =>
      put_env (with_queue w rest) ;;
      ret b
  end.

(** [bytes.decode('utf-8')] on the single byte [getch] returns: a byte
    below 128 is that character, any other byte is no complete UTF-8
    sequence. *)
Definition decode_utf8 (b : N) : M str :=
  if (b <? 128)%N then ret [b] else raise UnicodeDecodeError.

(** *** The methods *)

Definition __init__ (verbose : bool) : KeyReader := Reader verbose None.

Definition open : M unit :=
  v <- get_verbose ;;
  (if v then print "KeyReader: Opening..." else ret tt) ;;
  if negb is_win32 then
    settings <- termios_tcgetattr ;;
    set_old_settings settings ;;
    tty_setcbreak
  else ret tt.

Definition close : M unit :=
  v <- get_verbose ;;
  (if v then print "KeyReader: Closing..." else ret tt) ;;
  if negb is_win32 then
    settings <- get_old_settings ;;
    termios_tcsetattr TCSADRAIN settings
  else ret tt.

Definition read : M (option str) :=
  let value := None in
  if is_win32 then
    hit <- kbhit ;;
    if hit then
      b <- getch ;;
      s <- decode_utf8 b ;;
      ret (Some s)
    else ret value
  else
    select_result <- select_select [sys_stdin] (Some 0%float) ;;
    if existsb (stream_eqb sys_stdin) (fst (fst select_result)) then
      s <- stdin_read1 ;;
      ret (Some s)
    else ret value.

Definition __del__ : M unit := close.

(** What happens when the last reference to the reader goes: Python calls
    [__del__] and ignores what it raises. *)
Definition release : M unit := attempt __del__.

Definition __enter__ : M unit := open.

Definition __exit__ : M unit := close.

(** [with KeyReader(verbose) as key_reader: body].  The body gets the
    reader and acts on the environment.  [__exit__] runs when the body
    returns and when it raises, and as it returns [None] the body's
    exception goes on; it does not run when [__enter__] raised, nor when
    the body never comes back.  When [__enter__] raises, the reader was
    never bound to a name and is released. *)
Definition with_KeyReader {A} (verbose : bool)
           (body : KeyReader -> world -> outcome A * world)
           (w : world) : outcome A * state :=
  let key_reader := __init__ verbose in
  match __enter__ (State key_reader w) with
  | (Returns _, st1) =>
      let (r, w2) := body (self st1) (env st1) in
      let st2 := State (self st1) w2 in
      match r with
      | Blocks => (Blocks, st2)
      | _ =>
          match __exit__ st2 with
          | (Returns _, st3) => (r, st3)
          | (Raises e, st3) => (Raises e, st3)
          | (Blocks, st3) => (Blocks, st3)
          end
      end
  | (Raises e, st1) =>
      match release st1 with
      | (Blocks, st2) => (Blocks, st2)
      | (_, st2) => (Raises e, st2)
      end
  | (Blocks, st1) => (Blocks, st1)
  end.

(** [n] calls of [read] in a row, with what each returned. *)
Fixpoint reads (n : nat) : M (list (option str)) :=
  match n with
  | O => ret []
  | S n => v <- read ;; vs <- reads n ;; ret (v :: vs)
  end.




End Host.

(** Keys typed (or pasted) between two operations reach the operating
    system's queue behind those already there. *)
Definition keys_arrive (keys : list N) (st : state) : state :=
  let w := env st in
  State (self st) (with_queue w (tty_queue w ++ keys)).

(** Two environments that differ at most in what was printed. *)
Definition same_but_stdout (w1 w2 : world) : Prop :=
  tty_attrs w1 = tty_attrs w2
  /\ tty_queue w1 = tty_queue w2
  /\ stdin_buffer w1 = stdin_buffer w2
  /\ stdin_partial w1 = stdin_partial w2
  /\ stdin_eof w1 = stdin_eof w2
  /\ waited w1 = waited w2.

(** Two runs that differ at most in the reader's [verbose] flag and in
    what was printed. *)
Definition agree (st1 st2 : state) : Prop :=
  old_settings (self st1) = old_settings (self st2)
  /\ same_but_stdout (env st1) (env st2).

(** Hosts to run the code on; the win32 path never looks at the [termios]
    constants. *)
Definition linux : host := Host "linux" true linux_consts.
Definition darwin : host := Host "darwin" true darwin_consts.
Definition windows : host := Host "win32" true linux_consts.

(** Terminal modes as [stty] would show them on Linux: a terminal in its
    usual line mode ([ICANON] and [ECHO] set). *)
Definition cooked : termios_attrs :=
  Attrs 17664 5 191 35387 15 15
        [3; 28; 127; 21; 4; 0; 1; 0; 17; 19; 26; 0; 18; 15; 23; 22;
         0; 0; 0; 0; 0; 0; 0; 0; 0; 0; 0; 0; 0; 0; 0; 0]%Z.

End KeyReader.

(** ** minimum_interval.py, the example under [__main__] *)

Module MinimumIntervalMain.
Import MinimumInterval.

Definition print (line : string) (w : world) : world :=
  World (stdin w) (stdout w ++ [line]) (input_time w).

(** Lines 16-22: [while True: text = wait_for_enter(); ...].  The loop has
    no exit of its own, it ends when a call raises; [fuel] bounds the
    number of calls and [None] means the bound was reached first. *)
Fixpoint main (fuel : nat) (w : world) : option (outcome unit * world) :=
  match fuel with
  | O => None
  | S fuel =>
      match wait_for_enter default_prompt default_minimum_interval w with
      | (Returns text, w1) =>
          if (String.length text =? 0)%nat
          then main fuel (print "You didn't write anything!" w1)
          else main fuel (print ("You wrote: " ++ text) w1)
      | (Raises e, w1) => Some (Raises e, w1)
      | (Blocks, w1) => Some (Blocks, w1)
      end
  end.

(** A run of empty lines each of which comes less than [minimum_interval]
    after the one before it, the first of them after time [p]: what a
    held-down Enter key produces. *)
Fixpoint key_repeat (minimum_interval p : float) (burst : list submission)
  : bool :=
  match burst with
  | [] => true
  | s :: rest =>
      (String.length (text s) =? 0)%nat
      && negb (minimum_interval <=? stamp s - p)%float
      && key_repeat minimum_interval (stamp s) rest
  end.

Definition is_empty (s : submission) : bool :=
  (String.length (text s) =? 0)%nat.

(** The texts of the lines that are not empty, in their order. *)
Definition nonempty_texts (pending : list submission) : list string :=
  map text (filter (fun s => negb (is_empty s)) pending).

(** The lines of the example's output that echo a text. *)
Definition echoes (out : list string) : list string :=
  filter (String.prefix "You wrote: ") out.

Definition complaints (out : list string) : list string :=
  filter (String.eqb "You didn't write anything!") out.

End MinimumIntervalMain.

(** ** key_reader.py, the example under [__main__] *)

Module KeyReaderMain.
Import KeyReader.
Local Open Scope py_scope.

(** Everything that has arrived for standard input and was not handed out
    yet: what the text stream holds, then what the operating system
    holds. *)
Definition pending (w : world) : list N := stdin_buffer w ++ tty_queue w.

(** The characters among the values a series of [read] calls returned. *)
Definition somes (values : list (option str)) : list char :=
  flat_map (fun v => match v with Some s => s | None => [] end) values.

Section Example.
Variable h : host.

(** The text of a [str], as [print] writes it. *)
Variable show : str -> string.

(** [time.sleep(seconds)]. *)
Definition time_sleep (seconds : float) : M unit :=
  if (seconds <? 0)%float then raise ValueError
  else w <- get_env ;; put_env (with_wait w seconds).

(** Lines 62-66, one turn of the loop. *)
Definition poll_once : M unit :=
  value <- read h ;;
  match value with
  | Some s => print ("Key: " ++ show s)
  | None => time_sleep 0.050%float
  end.

(** Lines 61-66.  The loop has no exit of its own: it runs until the user
    interrupts it.  [schedule] lists, turn by turn, the keys that arrived
    since the turn before; when the list is over the interrupt comes. *)
Fixpoint poll (schedule : list (list N)) : M unit :=
  match schedule with
  | [] => raise KeyboardInterrupt
  | keys :: later =>
      fun st => (poll_once ;; poll later) (keys_arrive keys st)
  end.

(** Lines 60-66, and the end of the process: when the [with] statement
    was entered, [key_reader] is still bound after it, and the reader is
    released as the interpreter shuts down. *)
Definition main (schedule : list (list N)) (w : world)
  : outcome unit * state :=
  let entered :=
    is_return (fst (__enter__ h (State (__init__ true) w))) in
  let (r, st) :=
    with_KeyReader h true
      (fun key_reader w =>
         let (r, st) := poll schedule (State key_reader w) in (r, env st))
      w in
  match r with
  | Blocks => (Blocks, st)
  | _ =>
      if entered
      then match release h st with
           | (Blocks, st') => (Blocks, st')
           | (_, st') => (r, st')
           end
      else (r, st)
  end.

End Example.

(** The lines of the example's output that report a key. *)
Definition key_lines (show : str -> string) (keys : list char)
  : list string :=
  map (fun c => ("Key: " ++ show [c])%string) keys.

End KeyReaderMain.

(** ** Properties of [wait_for_enter] *)

Module MinimumIntervalProofs.
Import MinimumInterval.

Lemma loop_nil prompt mi out attr :
  loop prompt mi [] out attr
  = (Raises EOFError, World [] (out ++ [prompt]) (Some attr)).
Proof. reflexivity. Qed.

Lemma loop_accept prompt mi s rest out attr :
  accepts attr (text s) (stamp s) mi = true ->
  loop prompt mi (s :: rest) out attr
  = (Returns (text s), World rest (out ++ [prompt]) (Some (Some (stamp s)))).
Proof. intros H. cbn [loop]. now rewrite H. Qed.

Lemma loop_reject prompt mi s rest out attr :
  accepts attr (text s) (stamp s) mi = false ->
  loop prompt mi (s :: rest) out attr
  = loop prompt mi rest (out ++ [prompt]) (Some (stamp s)).
Proof. intros H. cbn [loop]. now rewrite H. Qed.

(** What line 11 decides, as a proposition. *)
Lemma accepts_true_iff previous_time txt now mi :
  accepts previous_time txt now mi = true <->
  previous_time = None
  \/ 0 < String.length txt
  \/ exists p, previous_time = Some p /\ (mi <=? now - p)%float = true.
Proof.
  unfold accepts. destruct previous_time as [p|].
  - rewrite orb_true_iff, Nat.ltb_lt. split.
    + intros [H|H]; [now right; left | right; right; now exists p].
    + intros [H|[H|[q [Hq H]]]]; [discriminate | now left | ].
      injection Hq as <-. now right.
  - split; [now left | reflexivity].
Qed.

Lemma stamped_snoc pre s attr :
  stamped (pre ++ [s]) attr = Some (stamp s).
Proof. unfold stamped. now rewrite fold_left_app. Qed.

(** Everything one run of the loop does, read off its result: which
    lines it read, what each of them was compared with, what it printed
    and what it left in the attribute. *)
Lemma loop_spec prompt mi pending :
  forall out attr r w',
    loop prompt mi pending out attr = (r, w') ->
    exists consumed,
      pending = consumed ++ stdin w'
      /\ input_time w' = Some (stamped consumed attr)
      /\ (forall pre s post,
             consumed = pre ++ s :: post ->
             accepts (stamped pre attr) (text s) (stamp s) mi
             = match post with [] => is_return r | _ => false end)
      /\ match r with
         | Returns t =>
             stdout w' = out ++ repeat prompt (List.length consumed)
             /\ exists rejected s, consumed = rejected ++ [s] /\ t = text s
         | Raises e =>
             e = EOFError /\ stdin w' = []
             /\ stdout w' = out ++ repeat prompt (S (List.length consumed))
         | Blocks => False
         end.
Proof.
  induction pending as [|s rest IH]; intros out attr r w' H.
  - rewrite loop_nil in H. injection H as <- <-.
    exists []. cbn. repeat split.
    intros [|? ?] ? ? Hc; discriminate Hc.
  - cbn [loop] in H.
    destruct (accepts attr (text s) (stamp s) mi) eqn:Hacc.
    + injection H as <- <-. exists [s]. cbn. repeat split.
      * intros [|s1 pre] s0 post Hc.
        -- injection Hc as <- <-. exact Hacc.
        -- injection Hc as _ Hc. now destruct pre.
      * exists [], s. now cbn.
    + apply IH in H.
      destruct H as (consumed & Hpend & Htime & Hdec & Hr).
      exists (s :: consumed). cbn [app stamped fold_left List.length].
      split; [now rewrite Hpend|]. split; [exact Htime|]. split.
      * intros [|s1 pre] s0 post Hc.
        -- injection Hc as <- <-. change (stamped [] attr) with attr.
           rewrite Hacc.
           destruct consumed as [|c cs]; [|reflexivity].
           destruct r as [t|e|]; try reflexivity.
           destruct Hr as (_ & [|? ?] & ? & Hc & _); discriminate Hc.
        -- injection Hc as <- Hc.
           exact (Hdec pre s0 post Hc).
      * destruct r as [t|e|].
        -- destruct Hr as (Hout & rejected & s' & Hc & Ht).
           split.
           { rewrite Hout, <- app_assoc. reflexivity. }
           exists (s :: rejected), s'. rewrite Hc. now split.
        -- destruct Hr as (He & Hin & Hout). repeat split; try assumption.
           rewrite Hout, <- app_assoc. reflexivity.
        -- exact Hr.
Qed.

Lemma loop_keeps_timestamp prompt mi pending :
  forall out p,
    has_timestamp (snd (loop prompt mi pending out (Some p))) = true.
Proof.
  induction pending as [|s rest IH]; intros out p; cbn [loop].
  - reflexivity.
  - destruct (accepts _ _ _ _); [reflexivity | apply IH].
Qed.

Lemma loop_sets_timestamp prompt mi pending out attr :
  pending <> [] ->
  has_timestamp (snd (loop prompt mi pending out attr)) = true.
Proof.
  destruct pending as [|s rest]; [congruence|]. intros _. cbn [loop].
  destruct (accepts _ _ _ _); [reflexivity | apply loop_keeps_timestamp].
Qed.

Lemma wait_for_enter_keeps_timestamp prompt mi w :
  has_timestamp w = true ->
  has_timestamp (snd (wait_for_enter prompt mi w)) = true.
Proof.
  unfold has_timestamp at 1, wait_for_enter.
  destruct (input_time w) as [[p|]|]; try discriminate.
  intros _. apply loop_keeps_timestamp.
Qed.

Lemma session_keeps_timestamp calls :
  forall w, has_timestamp w = true ->
            has_timestamp (snd (session calls w)) = true.
Proof.
  induction calls as [|[prompt mi] calls IH]; intros w Hw; cbn [session].
  - exact Hw.
  - pose proof (wait_for_enter_keeps_timestamp prompt mi w Hw) as H1.
    destruct (wait_for_enter prompt mi w) as [r w1]. cbn [snd] in H1.
    specialize (IH w1 H1). destruct (session calls w1) as [rs w2].
    exact IH.
Qed.

(** *** The acceptance rule *)

(** C1: a line read by [wait_for_enter] is accepted (the call returns its
    text, having read that line and no other) if and only if no
    timestamp was recorded before, or the text is non-empty, or the time
    elapsed since the timestamp of the previous read attempt is at least
    [minimum_interval]; an empty line that fails all three is dropped
    without any output but the next prompt, and the call goes on exactly
    as a call that starts on the remaining input. *)
Theorem wait_for_enter_accepts_iff prompt mi s rest out attr :
  let w := World (s :: rest) out attr in
  let w1 := World rest (out ++ [prompt]) (Some (Some (stamp s))) in
  let allowed :=
    init_attr attr = None
    \/ 0 < String.length (text s)
    \/ exists p, init_attr attr = Some p
                 /\ (mi <=? stamp s - p)%float = true in
  (wait_for_enter prompt mi w = (Returns (text s), w1) <-> allowed)
  /\ (~ allowed ->
      wait_for_enter prompt mi w = wait_for_enter prompt mi w1).
Proof.
  cbv zeta. unfold wait_for_enter. cbn [stdin stdout input_time init_attr].
  rewrite <- accepts_true_iff.
  destruct (accepts (init_attr attr) (text s) (stamp s) mi) eqn:Hacc.
  - split.
    + split; [reflexivity|]. intros _. now apply loop_accept.
    + intros H. now contradiction H.
  - rewrite (loop_reject _ _ _ _ _ _ Hacc). split.
    + split; [|discriminate]. intros H. exfalso.
      apply loop_spec in H.
      destruct H as (consumed & Hpend & _ & _ & _ & rejected & s' & Hc & _).
      cbn [stdin] in Hpend. apply (f_equal (@List.length _)) in Hpend.
      rewrite Hc, !length_app in Hpend. cbn in Hpend. lia.
    + reflexivity.
Qed.

(** C1 at work: 0.2 time units after an attempt at time 0 an empty line
    is dropped and the call carries on with the next line. *)
Lemma wait_for_enter_accepts_iff_witness :
  wait_for_enter "" 0.8%float
    (World [Submission "" 0.2%float; Submission "" 1.2%float] []
           (Some (Some 0%float)))
  = wait_for_enter "" 0.8%float
      (World [Submission "" 1.2%float] [""] (Some (Some 0.2%float))).
Proof.
  apply (proj2 (wait_for_enter_accepts_iff "" 0.8%float
                  (Submission "" 0.2%float) [Submission "" 1.2%float]
                  [] (Some (Some 0%float)))).
  cbn. intros [H|[H|[p [Hp H]]]].
  - discriminate H.
  - inversion H.
  - injection Hp as <-. vm_compute in H. discriminate H.
Defined.

(** C4: every line a call reads, kept or dropped, moves the stored
    timestamp to the time of that read before the next line is looked
    at: the first line read is compared with what the attribute held
    when the call began, every later one with the time of the line read
    just before it (which was dropped), and when the call is over the
    attribute holds the time of the last line read, whether the call
    returned it or ran out of input after dropping it.  The attribute
    keeps its old value only when no line was read at all. *)
Theorem input_time_follows_every_attempt prompt mi w r w' :
  wait_for_enter prompt mi w = (r, w') ->
  let attr := init_attr (input_time w) in
  exists consumed,
    stdin w = consumed ++ stdin w'
    /\ (forall pre s, consumed = pre ++ [s] ->
                      input_time w' = Some (Some (stamp s)))
    /\ (consumed = [] -> input_time w' = Some attr /\ r = Raises EOFError)
    /\ (forall s post,
           consumed = s :: post ->
           accepts attr (text s) (stamp s) mi
           = match post with [] => is_return r | _ => false end)
    /\ (forall pre s0 s post,
           consumed = pre ++ s0 :: s :: post ->
           accepts (Some (stamp s0)) (text s) (stamp s) mi
           = match post with [] => is_return r | _ => false end).
Proof.
  unfold wait_for_enter. intros H. cbv zeta.
  apply loop_spec in H.
  destruct H as (consumed & Hpend & Htime & Hdec & Hr).
  exists consumed. repeat split.
  - exact Hpend.
  - intros pre s ->. now rewrite Htime, stamped_snoc.
  - now rewrite Htime, H.
  - subst consumed. destruct r as [t|e|].
    + destruct Hr as (_ & [|? ?] & ? & Hc & _); discriminate Hc.
    + now destruct Hr as (-> & _).
    + contradiction.
  - intros s post Hc. exact (Hdec [] s post Hc).
  - intros pre s0 s post Hc.
    rewrite <- (stamped_snoc pre s0 (init_attr (input_time w))).
    apply Hdec. rewrite Hc, <- app_assoc. reflexivity.
Qed.

(** C4 at work: a line dropped at time 0.2 and one kept at time 1.2; the
    second was compared with 0.2, and 1.2 is what the attribute holds in
    the end. *)
Lemma input_time_follows_every_attempt_witness :
  exists consumed,
    [Submission "" 0.2%float; Submission "" 1.2%float] = consumed ++ []
    /\ (forall pre s, consumed = pre ++ [s] ->
                      Some (Some 1.2%float) = Some (Some (stamp s))).
Proof.
  destruct (input_time_follows_every_attempt "" 0.8%float
              (World [Submission "" 0.2%float; Submission "" 1.2%float] []
                     (Some (Some 0%float)))
              (Returns "")
              (World [] [""; ""] (Some (Some 1.2%float)))
              eq_refl)
    as (consumed & H1 & H2 & _).
  exists consumed. split; [exact H1 | exact H2].
Defined.

(** C5: a non-empty line is never held back, whatever the time since the
    previous attempt and whatever the interval asked for: the call
    returns it at once. *)
Theorem nonempty_line_never_debounced prompt mi s rest out attr :
  text s <> "" ->
  wait_for_enter prompt mi (World (s :: rest) out attr)
  = (Returns (text s),
     World rest (out ++ [prompt]) (Some (Some (stamp s)))).
Proof.
  intros Hne. unfold wait_for_enter. apply loop_accept.
  unfold accepts. destruct (init_attr _); [|reflexivity].
  destruct (text s); [congruence | reflexivity].
Qed.

(** C5 at work: "hello", 0.01 time units after an empty submission. *)
Lemma nonempty_line_never_debounced_witness :
  wait_for_enter "" 0.8%float
    (World [Submission "hello" 5.01%float] [""] (Some (Some 5%float)))
  = (Returns "hello", World [] [""; ""] (Some (Some 5.01%float)))
  /\ (0.8 <=? 5.01 - 5)%float = false.
Proof.
  split.
  - apply (nonempty_line_never_debounced "" 0.8%float
             (Submission "hello" 5.01%float) [] [""] (Some (Some 5%float))).
    cbn. discriminate.
  - reflexivity.
Defined.

(** Only empty lines are ever dropped. *)
Lemma rejected_lines_are_empty previous_time txt now mi :
  accepts previous_time txt now mi = false -> txt = "".
Proof.
  unfold accepts. destruct previous_time; [|discriminate].
  destruct txt; [reflexivity | discriminate].
Qed.

(** C6: with [minimum_interval = 0.8] and a fresh process, empty lines
    at times 0, 0.2, 0.3 and 1.2 give two accepted submissions: the one
    at 0 (nothing recorded yet) ends the first call, the second call
    drops the ones at 0.2 and 0.3, each compared with the attempt just
    before it, and returns the one at 1.2, which comes 1.2 - 0.3 after
    its predecessor. *)
Theorem scenario_four_empty_lines :
  let e t := Submission "" t in
  let w0 := fresh [e 0%float; e 0.2%float; e 0.3%float; e 1.2%float] in
  let mi := default_minimum_interval in
  wait_for_enter "" mi w0
  = (Returns "",
     World [e 0.2%float; e 0.3%float; e 1.2%float] [""]
           (Some (Some 0%float)))
  /\ wait_for_enter "" mi (snd (wait_for_enter "" mi w0))
     = (Returns "", World [] [""; ""; ""; ""] (Some (Some 1.2%float)))
  /\ session [("", mi); ("", mi)] w0
     = ([Returns ""; Returns ""],
        World [] [""; ""; ""; ""] (Some (Some 1.2%float)))
  /\ accepts None "" 0%float mi = true
  /\ accepts (Some 0%float) "" 0.2%float mi = false
  /\ accepts (Some 0.2%float) "" 0.3%float mi = false
  /\ accepts (Some 0.3%float) "" 1.2%float mi = true
  /\ (0.2 - 0 <? mi)%float = true
  /\ (0.3 - 0.2 <? mi)%float = true
  /\ (mi <=? 1.2 - 0.3)%float = true.
Proof. cbv zeta. repeat split; vm_compute; reflexivity. Qed.

(** C10: once a call has read a line, the attribute holds a timestamp
    when that call ends (by returning or by running out of input), and
    it holds one after any further calls whatever their arguments and
    input; from then on no attempt finds [None] in it, so a line is
    only ever accepted for being non-empty or late enough. *)
Theorem timestamp_never_none_again prompt mi w :
  stdin w <> [] ->
  let w1 := snd (wait_for_enter prompt mi w) in
  has_timestamp w1 = true
  /\ forall calls,
      let w2 := snd (session calls w1) in
      has_timestamp w2 = true
      /\ init_attr (input_time w2) <> None
      /\ forall txt now mi',
          accepts (init_attr (input_time w2)) txt now mi' = true ->
          0 < String.length txt
          \/ exists p, input_time w2 = Some (Some p)
                       /\ (mi' <=? now - p)%float = true.
Proof.
  intros Hin. cbv zeta.
  assert (H1 : has_timestamp (snd (wait_for_enter prompt mi w)) = true)
    by (now apply loop_sets_timestamp).
  split; [exact H1|]. intros calls.
  pose proof (session_keeps_timestamp calls _ H1) as H2.
  split; [exact H2|].
  unfold has_timestamp in H2.
  destruct (input_time (snd (session calls _))) as [[p|]|];
    try discriminate H2.
  split; [discriminate|].
  intros txt now mi' Hacc. apply accepts_true_iff in Hacc.
  destruct Hacc as [H|[H|[q [Hq H]]]].
  - discriminate H.
  - now left.
  - right. exists p. cbn in Hq. injection Hq as <-. now split.
Qed.

(** C10 at work: a first call that reads one line, then two more calls. *)
Lemma timestamp_never_none_again_witness :
  has_timestamp
    (snd (session [("", 0.8%float); (">", 0.1%float)]
            (snd (wait_for_enter "" 0.8%float
                    (fresh [Submission "" 0%float;
                            Submission "" 0.2%float])))))
  = true.
Proof.
  refine (proj1 (proj2 (timestamp_never_none_again "" 0.8%float
                          (fresh [Submission "" 0%float;
                                  Submission "" 0.2%float]) _)
                   [("", 0.8%float); (">", 0.1%float)])).
  cbn. discriminate.
Defined.

(** Before any line was read the first-call rule does apply. *)
Lemma first_attempt_ever_accepted prompt mi s rest :
  wait_for_enter prompt mi (fresh (s :: rest))
  = (Returns (text s), World rest [prompt] (Some (Some (stamp s)))).
Proof. reflexivity. Qed.

End MinimumIntervalProofs.

(** ** Properties of [KeyReader] *)

Module KeyReaderProofs.
Import KeyReader.
Local Open Scope py_scope.

Ltac unfold_py :=
  unfold open, close, read, __enter__, __exit__, tty_setcbreak,
    termios_tcgetattr, termios_tcsetattr, select_select, stdin_read1,
    kbhit, getch, decode_utf8, print, get_verbose, get_old_settings,
    set_old_settings, get_env, put_env, bind, ret, raise, block in *.

Arguments CHUNK_SIZE : simpl never.

Lemma chunk_size_succ : CHUNK_SIZE = S (Nat.pred CHUNK_SIZE).
Proof. vm_compute. reflexivity. Qed.

Lemma firstn_chunk_cons (c : N) q :
  firstn CHUNK_SIZE (c :: q) = c :: firstn (Nat.pred CHUNK_SIZE) q.
Proof. rewrite chunk_size_succ at 1. reflexivity. Qed.

Lemma skipn_chunk_cons (c : N) q :
  skipn CHUNK_SIZE (c :: q) = skipn (Nat.pred CHUNK_SIZE) q.
Proof. rewrite chunk_size_succ at 1. reflexivity. Qed.

(** *** The decoder on bytes below 128 *)

Lemma utf8_decode_ascii l :
  Forall (fun b => (b < 128)%N) l -> utf8_decode l = Decoded l [].
Proof.
  induction 1 as [|b l Hb _ IH]; [reflexivity|].
  apply N.ltb_lt in Hb. cbn [utf8_decode]. now rewrite Hb, IH.
Qed.

Lemma Forall_firstn_lt n (l : list N) :
  Forall (fun b => (b < 128)%N) l ->
  Forall (fun b => (b < 128)%N) (firstn n l).
Proof.
  intros H. revert n. induction H as [|b l Hb _ IH]; intros [|n]; cbn;
    constructor; auto.
Qed.

Lemma Forall_skipn_lt n (l : list N) :
  Forall (fun b => (b < 128)%N) l ->
  Forall (fun b => (b < 128)%N) (skipn n l).
Proof.
  intros H. revert n. induction H as [|b l Hb Hl IH]; intros [|n]; cbn;
    try constructor; auto.
Qed.

(** Fetching when only bytes below 128 are waiting and the decoder holds
    nothing: the first byte is the character, the rest of the chunk is
    kept by the stream. *)
Lemma fetch_ascii fuel c q eof :
  Forall (fun b => (b < 128)%N) (c :: q) ->
  fetch (S fuel) (c :: q) [] eof
  = Got c (firstn (Nat.pred CHUNK_SIZE) q) []
        (skipn (Nat.pred CHUNK_SIZE) q).
Proof.
  intros Hall. cbn [fetch]. rewrite firstn_chunk_cons, skipn_chunk_cons.
  cbn [app].
  rewrite (utf8_decode_ascii (c :: firstn (Nat.pred CHUNK_SIZE) q)).
  - reflexivity.
  - inversion Hall; subst. constructor; [assumption|].
    now apply Forall_firstn_lt.
Qed.

Lemma fetch_nothing fuel unfinished :
  fetch (S fuel) [] unfinished false = Waits.
Proof. reflexivity. Qed.

(** The bound on the turns of [fetch] is never what stops it: with more
    fuel than the queue has bytes, more fuel changes nothing. *)
Lemma fetch_fuel_enough fuel :
  forall queue unfinished eof,
    List.length queue < fuel ->
    fetch (S fuel) queue unfinished eof = fetch fuel queue unfinished eof.
Proof.
  induction fuel as [|fuel IH]; intros queue unfinished eof Hlen; [lia|].
  cbn [fetch]. destruct queue as [|c q]; [reflexivity|].
  rewrite firstn_chunk_cons, skipn_chunk_cons.
  destruct (utf8_decode (unfinished ++ c :: firstn (Nat.pred CHUNK_SIZE) q))
    as [[|c' held] unfinished'|]; try reflexivity.
  apply IH. rewrite length_skipn. cbn [List.length] in Hlen. lia.
Qed.

Arguments fetch : simpl never.
Arguments utf8_decode : simpl never.

(** *** What [read] comes to *)

Lemma select_zero_timeout st :
  select_select [sys_stdin] (Some 0%float) st
  = (Returns (if readable (env st) sys_stdin then [sys_stdin] else [],
              [], []), st).
Proof.
  unfold select_select.
  change (0 <? 0)%float with false. unfold_py. unfold readable. cbn.
  destruct (tty_queue (env st)); [|reflexivity].
  now destruct (stdin_eof (env st)).
Qed.

Lemma select_without_timeout_blocks st :
  readable (env st) sys_stdin = false ->
  fst (select_select [sys_stdin] None st) = Blocks.
Proof.
  unfold_py. unfold readable. cbn.
  destruct (tty_queue (env st)); [|discriminate]. now intros ->.
Qed.

Lemma read_posix_eq h st :
  is_win32 h = false ->
  read h st
  = if readable (env st) sys_stdin
    then (s <- stdin_read1 ;; ret (Some s)) st
    else (Returns None, st).
Proof.
  intros Hp. unfold read. rewrite Hp. unfold bind at 1.
  rewrite select_zero_timeout.
  now destruct (readable (env st) sys_stdin).
Qed.

Lemma read_win32_eq h st :
  is_win32 h = true ->
  read h st
  = match tty_queue (env st) with
    | [] => (Returns None, st)
    | b :: rest =>
        (if (b <? 128)%N then Returns (Some [b])
         else Raises UnicodeDecodeError,
         State (self st) (with_queue (env st) rest))
    end.
Proof.
  intros Hw. unfold read. rewrite Hw. unfold_py. cbn.
  destruct (tty_queue (env st)) as [|b rest] eqn:Hq; [reflexivity|].
  cbn. rewrite Hq. cbn. now destruct (b <? 128)%N.
Qed.

(** [read] with nothing to fetch and the input still open hands back
    [None] and changes nothing. *)
Lemma read_nothing_pending h st :
  tty_queue (env st) = [] ->
  is_win32 h = true \/ stdin_eof (env st) = false ->
  read h st = (Returns None, st).
Proof.
  intros Hq Hopen. destruct (is_win32 h) eqn:Hw.
  - now rewrite (read_win32_eq h st Hw), Hq.
  - destruct Hopen as [Hopen|Hopen]; [discriminate|].
    rewrite (read_posix_eq h st Hw). unfold readable.
    now rewrite Hq, Hopen.
Qed.

Lemma read_keeps_reader h st : self (snd (read h st)) = self st.
Proof.
  destruct (is_win32 h) eqn:Hw.
  - rewrite (read_win32_eq h st Hw).
    now destruct (tty_queue (env st)).
  - rewrite (read_posix_eq h st Hw).
    destruct (readable (env st) sys_stdin); [|reflexivity].
    unfold_py. cbn. destruct (stdin_buffer (env st)); [|reflexivity].
    now destruct (fetch _ _ _ _).
Qed.

Lemma close_keeps_reader h st : self (snd (close h st)) = self st.
Proof.
  destruct st as [[v o] w]. unfold_py. cbn.
  destruct v, (is_win32 h), o, (stdin_isatty h); reflexivity.
Qed.

(** *** Saving and restoring the terminal's mode *)

(** What [open] does on the POSIX path: when it returns, the snapshot
    is the mode the terminal had; when it raises, the mode is still
    that one, and the snapshot is the old one or again that mode. *)
Lemma open_posix h st :
  is_win32 h = false ->
  match open h st with
  | (Returns _, st1) =>
      old_settings (self st1) = Some (tty_attrs (env st))
      /\ stdin_isatty h = true
  | (Raises _, st1) =>
      tty_attrs (env st1) = tty_attrs (env st)
      /\ (old_settings (self st1) = old_settings (self st)
          \/ (old_settings (self st1) = Some (tty_attrs (env st))
              /\ stdin_isatty h = true))
  | (Blocks, _) => False
  end.
Proof.
  intros Hp. destruct st as [[v o] w]. unfold_py. cbn. rewrite Hp. cbn.
  destruct v; cbn; destruct (stdin_isatty h); cbn; auto;
    destruct (list_assign (cc (tty_attrs w)) (VMIN (consts h)) 1)
      as [cc1|]; cbn; auto;
    destruct (list_assign cc1 (VTIME (consts h)) 0); cbn; auto.
Qed.

(** What [close] does on the POSIX path once a snapshot exists. *)
Lemma close_posix_exact h k a0 w :
  is_win32 h = false -> stdin_isatty h = true ->
  old_settings k = Some a0 ->
  close h (State k w)
  = (Returns tt,
     State k (MkWorld a0 (tty_queue w) (stdin_buffer w)
                      (stdout w ++ if verbose k
                                   then ["KeyReader: Closing..."]
                                   else [])
                      (stdin_partial w) (stdin_eof w) (waited w))).
Proof.
  intros Hp Htty Hold. destruct k as [v o]. cbn in Hold. subst o.
  unfold_py. cbn. rewrite Hp, Htty.
  destruct v; cbn; rewrite ?app_nil_r; reflexivity.
Qed.

(** [close] without a snapshot on the POSIX path. *)
Lemma close_posix_unset h k w :
  is_win32 h = false ->
  old_settings k = None ->
  close h (State k w)
  = (Raises AttributeError,
     State k (with_stdout w (stdout w ++ if verbose k
                                         then ["KeyReader: Closing..."]
                                         else []))).
Proof.
  intros Hp Hold. destruct k as [v o], w. cbn in Hold. subst o.
  unfold_py. cbn. rewrite Hp.
  destruct v; cbn; rewrite ?app_nil_r; reflexivity.
Qed.

(** After a failed [open] that started without a snapshot, releasing the
    reader leaves the terminal in the mode [open] found. *)
Lemma release_after_failed_open h v w e st1 :
  is_win32 h = false ->
  open h (State (__init__ v) w) = (Raises e, st1) ->
  fst (release h st1) = Returns tt
  /\ tty_attrs (env (snd (release h st1))) = tty_attrs w.
Proof.
  intros Hp Ho. pose proof (open_posix h (State (__init__ v) w) Hp) as H.
  rewrite Ho in H. cbn in H. destruct H as [Ha Hold].
  destruct st1 as [k1 w1]. cbn in Ha, Hold.
  unfold release, attempt, __del__. destruct Hold as [Hold|[Hold Htty]].
  - rewrite (close_posix_unset h k1 w1 Hp Hold). cbn. now split.
  - rewrite (close_posix_exact h k1 _ w1 Hp Htty Hold). cbn. now split.
Qed.

(** C3: on the POSIX path, [close] puts the terminal back into the mode
    that the latest [open] saved, whatever happened to the terminal in
    between; and a [with] statement leaves the terminal in the mode it
    found, on every way out of it: when the body returns, when the body
    raises (the exception then goes on to the caller), and when
    [__enter__] itself raises. *)
Theorem close_restores_snapshot h :
  is_win32 h = false ->
  (forall st st1,
      open h st = (Returns tt, st1) ->
      old_settings (self st1) = Some (tty_attrs (env st))
      /\ forall w2,
          fst (close h (State (self st1) w2)) = Returns tt
          /\ tty_attrs (env (snd (close h (State (self st1) w2))))
             = tty_attrs (env st))
  /\ (forall (A : Type) verbose
             (body : KeyReader -> world -> outcome A * world) w,
         fst (with_KeyReader h verbose body w) <> Blocks ->
         tty_attrs (env (snd (with_KeyReader h verbose body w)))
         = tty_attrs w)
  /\ (forall (A : Type) verbose
             (body : KeyReader -> world -> outcome A * world) w st1 e w2,
         __enter__ h (State (__init__ verbose) w) = (Returns tt, st1) ->
         body (self st1) (env st1) = (Raises e, w2) ->
         fst (with_KeyReader h verbose body w) = Raises e
         /\ tty_attrs (env (snd (with_KeyReader h verbose body w)))
            = tty_attrs w).
Proof.
  intros Hp.
  assert (Hclose : forall st st1,
             open h st = (Returns tt, st1) ->
             old_settings (self st1) = Some (tty_attrs (env st))
             /\ forall w2,
                 fst (close h (State (self st1) w2)) = Returns tt
                 /\ tty_attrs (env (snd (close h (State (self st1) w2))))
                    = tty_attrs (env st)).
  { intros st st1 Hopen. pose proof (open_posix h st Hp) as H.
    rewrite Hopen in H. destruct H as [Hold Htty].
    split; [exact Hold|]. intros w2.
    rewrite (close_posix_exact h (self st1) _ w2 Hp Htty Hold).
    now split. }
  split; [exact Hclose|]. split.
  - intros A verbose body w. unfold with_KeyReader, __enter__, __exit__.
    destruct (open h (State (__init__ verbose) w)) as [[[]|e|] st1] eqn:Ho.
    + apply Hclose in Ho. destruct Ho as [_ Ho].
      destruct (body (self st1) (env st1)) as [r w2].
      specialize (Ho w2).
      destruct (close h (State (self st1) w2)) as [[[]|e'|] st3];
        cbn in Ho; destruct Ho as [Hr Ha]; try discriminate Hr.
      destruct r; cbn; intros Hb; [exact Ha | exact Ha | congruence].
    + destruct (release_after_failed_open h verbose w e st1 Hp Ho)
        as [Hr Ha].
      destruct (release h st1) as [[[]|e'|] st2]; cbn in Hr, Ha;
        try discriminate Hr.
      intros _. exact Ha.
    + pose proof (open_posix h (State (__init__ verbose) w) Hp) as H.
      now rewrite Ho in H.
  - intros A verbose body w st1 e w2 He Hb.
    unfold with_KeyReader. rewrite He, Hb.
    unfold __enter__ in He. apply Hclose in He. destruct He as [_ He].
    specialize (He w2). unfold __exit__.
    destruct (close h (State (self st1) w2)) as [[[]|e'|] st3];
      cbn in He; destruct He as [Hr Ha]; try discriminate Hr.
    now split.
Qed.

(** C3 at work: on Linux, a body that reads a key, wrecks the terminal's
    mode and is then interrupted. *)
Lemma close_restores_snapshot_witness :
  let body (k : KeyReader) (w : world) : outcome unit * world :=
    let (_, st) := read linux (State k w) in
    (Raises KeyboardInterrupt,
     World (Attrs 0 0 0 0 0 0 []) (tty_queue (env st))
           (stdin_buffer (env st)) (stdout (env st))) in
  let w := World cooked [] [] [] in
  tty_attrs (env (snd (with_KeyReader linux true body w))) = cooked.
Proof.
  cbv zeta.
  refine (proj1 (proj2 (close_restores_snapshot linux _)) unit true _
                (World cooked [] [] []) _).
  - reflexivity.
  - vm_compute. discriminate.
Defined.

(** *** The verbosity flag *)

Ltac open_cases h a :=
  destruct (is_win32 h), (stdin_isatty h); cbn; try reflexivity;
  try (destruct (list_assign (cc a) (VMIN (consts h)) 1) as [cc1|];
       cbn; try reflexivity;
       destruct (list_assign cc1 (VTIME (consts h)) 0); cbn;
       reflexivity).

Ltac read_cases h q b p e :=
  let Hw := fresh "Hw" in
  destruct (is_win32 h) eqn:Hw;
  [ rewrite ?(read_win32_eq h _ Hw); cbn;
    destruct q as [|c q]; cbn; try reflexivity;
    destruct (c <? 128)%N; cbn; reflexivity
  | rewrite ?(read_posix_eq h _ Hw); unfold readable; cbn;
    destruct q as [|c q], e; cbn; try reflexivity;
    unfold_py; cbn; destruct b; cbn; try reflexivity;
    match goal with
    | |- context [fetch ?f ?x ?y ?z] => destruct (fetch f x y z)
    end; cbn; reflexivity ].

Lemma open_agree h st1 st2 :
  agree st1 st2 ->
  fst (open h st1) = fst (open h st2)
  /\ agree (snd (open h st1)) (snd (open h st2)).
Proof.
  destruct st1 as [[v1 o1] [a1 q1 b1 out1 p1 e1 wt1]].
  destruct st2 as [[v2 o2] [a2 q2 b2 out2 p2 e2 wt2]].
  intros (Ho & Ha & Hq & Hb & Hpa & He & Hwt).
  cbn in Ho, Ha, Hq, Hb, Hpa, He, Hwt. subst o2 a2 q2 b2 p2 e2 wt2.
  unfold agree, same_but_stdout. unfold_py. cbn.
  destruct v1, v2; cbn; repeat split; open_cases h a1.
Qed.

Lemma close_agree h st1 st2 :
  agree st1 st2 ->
  fst (close h st1) = fst (close h st2)
  /\ agree (snd (close h st1)) (snd (close h st2)).
Proof.
  destruct st1 as [[v1 o1] [a1 q1 b1 out1 p1 e1 wt1]].
  destruct st2 as [[v2 o2] [a2 q2 b2 out2 p2 e2 wt2]].
  intros (Ho & Ha & Hq & Hb & Hpa & He & Hwt).
  cbn in Ho, Ha, Hq, Hb, Hpa, He, Hwt. subst o2 a2 q2 b2 p2 e2 wt2.
  unfold agree, same_but_stdout. unfold_py. cbn.
  destruct v1, v2, o1, (is_win32 h), (stdin_isatty h); cbn;
    repeat split.
Qed.

Lemma read_agree h st1 st2 :
  agree st1 st2 ->
  fst (read h st1) = fst (read h st2)
  /\ agree (snd (read h st1)) (snd (read h st2)).
Proof.
  destruct st1 as [[v1 o1] [a1 q1 b1 out1 p1 e1 wt1]].
  destruct st2 as [[v2 o2] [a2 q2 b2 out2 p2 e2 wt2]].
  intros (Ho & Ha & Hq & Hb & Hpa & He & Hwt).
  cbn in Ho, Ha, Hq, Hb, Hpa, He, Hwt. subst o2 a2 q2 b2 p2 e2 wt2.
  unfold agree, same_but_stdout.
  repeat split; read_cases h q1 b1 p1 e1.
Qed.

Lemma verbose_kept h st :
  verbose (self (snd (open h st))) = verbose (self st)
  /\ verbose (self (snd (close h st))) = verbose (self st)
  /\ verbose (self (snd (read h st))) = verbose (self st).
Proof.
  split; [|split].
  - destruct st as [[v o] [a q b out p e wt]]. unfold_py. cbn.
    destruct v; cbn; open_cases h a.
  - now rewrite close_keeps_reader.
  - now rewrite read_keeps_reader.
Qed.

Lemma quiet_prints_nothing h st :
  verbose (self st) = false ->
  stdout (env (snd (open h st))) = stdout (env st)
  /\ stdout (env (snd (close h st))) = stdout (env st).
Proof.
  destruct st as [[v o] [a q b out p e wt]]. cbn. intros ->. split.
  - unfold_py. cbn. open_cases h a.
  - unfold_py. cbn. destruct o, (is_win32 h), (stdin_isatty h);
      reflexivity.
Qed.

Lemma read_prints_nothing h st :
  stdout (env (snd (read h st))) = stdout (env st).
Proof.
  destruct st as [[v o] [a q b out p e wt]].
  read_cases h q b p e.
Qed.

(** C8: two runs that differ only in the [verbose] flag of the reader
    (and so, possibly, in what was printed so far) go the same way:
    each of [open], [close] and [read] has the same outcome in both,
    returns the same value, and leaves the terminal's mode, the pending
    input and the saved snapshot the same in both.  The flag itself is
    never changed, a quiet reader prints nothing and [read] prints
    nothing. *)
Theorem verbose_noninterference h st1 st2 :
  agree st1 st2 ->
  (fst (open h st1) = fst (open h st2)
   /\ agree (snd (open h st1)) (snd (open h st2)))
  /\ (fst (close h st1) = fst (close h st2)
      /\ agree (snd (close h st1)) (snd (close h st2)))
  /\ (fst (read h st1) = fst (read h st2)
      /\ agree (snd (read h st1)) (snd (read h st2)))
  /\ (verbose (self (snd (open h st1))) = verbose (self st1)
      /\ verbose (self (snd (close h st1))) = verbose (self st1)
      /\ verbose (self (snd (read h st1))) = verbose (self st1))
  /\ (verbose (self st1) = false ->
      stdout (env (snd (open h st1))) = stdout (env st1)
      /\ stdout (env (snd (close h st1))) = stdout (env st1))
  /\ stdout (env (snd (read h st1))) = stdout (env st1).
Proof.
  intros Hagree. split; [|split; [|split; [|split; [|split]]]].
  - now apply open_agree.
  - now apply close_agree.
  - now apply read_agree.
  - apply verbose_kept.
  - apply quiet_prints_nothing.
  - apply read_prints_nothing.
Qed.

(** C8 at work: a verbose and a quiet reader opening the same Linux
    terminal. *)
Lemma verbose_noninterference_witness :
  let w := World cooked [97%N] [] [] in
  fst (open linux (State (__init__ true) w))
  = fst (open linux (State (__init__ false) w))
  /\ agree (snd (open linux (State (__init__ true) w)))
           (snd (open linux (State (__init__ false) w))).
Proof.
  cbv zeta.
  refine (proj1 (verbose_noninterference linux
                   (State (__init__ true) (World cooked [97%N] [] []))
                   (State (__init__ false) (World cooked [97%N] [] []))
                   _)).
  repeat split.
Defined.

(** *** Draining what is pending *)

Lemma reads_nothing_pending h n :
  forall st,
    tty_queue (env st) = [] ->
    is_win32 h = true \/ stdin_eof (env st) = false ->
    reads h n st = (Returns (repeat None n), st).
Proof.
  induction n as [|n IH]; intros st Hq Hopen; cbn [reads repeat].
  - reflexivity.
  - unfold bind at 1. rewrite read_nothing_pending by assumption.
    unfold bind at 1. rewrite IH by assumption. reflexivity.
Qed.

(** The POSIX path: the first [read] after a burst of keys returns the
    first of them and moves the others from the operating system's
    queue into the text stream, where [select] does not see them. *)
Lemma read_posix_burst h st c q :
  is_win32 h = false ->
  stdin_buffer (env st) = [] ->
  stdin_partial (env st) = [] ->
  tty_queue (env st) = c :: q ->
  Forall (fun b => (b < 128)%N) (c :: q) ->
  List.length q < CHUNK_SIZE ->
  read h st
  = (Returns (Some [c]), State (self st) (with_stream (env st) [] q [])).
Proof.
  intros Hp Hb Hpa Hq Hall Hlen.
  rewrite (read_posix_eq h st Hp). unfold readable. rewrite Hq.
  unfold_py. cbn. rewrite Hb, Hq, Hpa.
  rewrite (fetch_ascii _ c q _ Hall).
  rewrite firstn_all2, skipn_all2 by lia. reflexivity.
Qed.

(** So however often [read] is called after that, it returns nothing
    more as long as no new key arrives. *)
Lemma reads_posix_burst h st c q n :
  is_win32 h = false ->
  stdin_buffer (env st) = [] ->
  stdin_partial (env st) = [] ->
  stdin_eof (env st) = false ->
  tty_queue (env st) = c :: q ->
  Forall (fun b => (b < 128)%N) (c :: q) ->
  List.length q < CHUNK_SIZE ->
  reads h (S n) st
  = (Returns (Some [c] :: repeat None n),
     State (self st) (with_stream (env st) [] q [])).
Proof.
  intros Hp Hb Hpa He Hq Hall Hlen. cbn [reads]. unfold bind at 1.
  rewrite (read_posix_burst h st c q Hp Hb Hpa Hq Hall Hlen).
  unfold bind at 1.
  rewrite reads_nothing_pending; [reflexivity | reflexivity |].
  right. exact He.
Qed.

(** A key that arrives later brings out the oldest character held back,
    not itself. *)
Lemma read_posix_held_back h st c held k q :
  is_win32 h = false ->
  stdin_buffer (env st) = c :: held ->
  tty_queue (env st) = k :: q ->
  read h st
  = (Returns (Some [c]),
     State (self st)
           (with_stream (env st) (k :: q) held (stdin_partial (env st)))).
Proof.
  intros Hp Hb Hq.
  rewrite (read_posix_eq h st Hp). unfold readable. rewrite Hq.
  unfold_py. cbn. rewrite Hb, Hq. reflexivity.
Qed.

(** The win32 path does drain its queue one byte per call, in order,
    and then reports that nothing is left (bytes below 128 decode). *)
Lemma reads_win32_drains h bytes :
  is_win32 h = true ->
  Forall (fun b => (b < 128)%N) bytes ->
  forall st,
    tty_queue (env st) = bytes ->
    reads h (S (List.length bytes)) st
    = (Returns (map (fun b => Some [b]) bytes ++ [None]),
       State (self st) (with_queue (env st) [])).
Proof.
  intros Hw Hall. induction Hall as [|b bytes Hb Hall IH]; intros st Hq.
  - rewrite reads_nothing_pending; [|exact Hq|now left].
    destruct st as [k [a q buf out p e wt]]. cbn in Hq. subst q.
    reflexivity.
  - cbn [List.length]. remember (S (List.length bytes)) as n.
    cbn [reads]. unfold bind at 1.
    rewrite (read_win32_eq h st Hw), Hq.
    apply N.ltb_lt in Hb. rewrite Hb.
    subst n. unfold bind at 1. rewrite IH by reflexivity. reflexivity.
Qed.

(** C2, on the code: a Linux terminal, opened; the Up arrow is pressed,
    which puts the three characters ESC [ A into the queue at once.
    Three calls of [read] return ESC and then twice [None]; [ and A
    stay in the text stream.  The same three bytes on the win32 path
    come out one per call. *)
Theorem read_leaves_buffered_keys_unread :
  let opened :=
    snd (open linux (State (__init__ false) (World cooked [] [] []))) in
  let st := keys_arrive [27; 91; 65]%N opened in
  tty_queue (env st) = [27; 91; 65]%N
  /\ stdin_buffer (env st) = []
  /\ fst (reads linux 3 st) = Returns [Some [27%N]; None; None]
  /\ fst (reads linux 4 st) = Returns [Some [27%N]; None; None; None]
  /\ stdin_buffer (env (snd (reads linux 3 st))) = [91; 65]%N
  /\ fst (reads windows 4 st)
     = Returns [Some [27%N]; Some [91%N]; Some [65%N]; None].
Proof. cbv zeta. repeat split; vm_compute; reflexivity. Qed.

(** *** Waiting *)

(** On the win32 path [read] never waits: [getch] is only called after
    [kbhit] has seen a key. *)
Lemma read_win32_never_blocks h st :
  is_win32 h = true -> fst (read h st) <> Blocks.
Proof.
  intros Hw. rewrite (read_win32_eq h st Hw).
  destruct (tty_queue (env st)) as [|b rest]; [discriminate|].
  cbn. destruct (b <? 128)%N; discriminate.
Qed.

(** On the POSIX path [read] does not wait when only bytes below 128 are
    there and the decoder holds nothing. *)
Lemma read_posix_ascii_never_blocks h st :
  is_win32 h = false ->
  stdin_partial (env st) = [] ->
  Forall (fun b => (b < 128)%N) (tty_queue (env st)) ->
  fst (read h st) <> Blocks.
Proof.
  intros Hp Hpa Hall. rewrite (read_posix_eq h st Hp). unfold readable.
  destruct (tty_queue (env st)) as [|c q] eqn:Hq.
  - destruct (stdin_eof (env st)) eqn:He; [|discriminate].
    unfold_py. cbn. destruct (stdin_buffer (env st)); [|discriminate].
    rewrite Hq, Hpa, He. cbn. discriminate.
  - unfold_py. cbn. destruct (stdin_buffer (env st)); [|discriminate].
    rewrite Hq, Hpa, (fetch_ascii _ c q _ Hall). discriminate.
Qed.

(** C7, on the code: a Linux terminal, opened, on which the first byte
    of a two-byte character (195, the beginning of an accented letter)
    has arrived and the second has not.  [select] with timeout 0 reports
    standard input as ready, and [read] then waits inside
    [sys.stdin.read(1)] for the rest of the character: it blocks.  With
    both bytes there it returns the character.  The win32 path does not
    wait on the same byte (it raises).  And at the end of input [read]
    returns the empty string, not [None], although nothing is pending. *)
Theorem read_blocks_on_unfinished_character :
  let opened :=
    snd (open linux (State (__init__ false) (World cooked [] [] []))) in
  let st := keys_arrive [195%N] opened in
  let at_end :=
    State (__init__ false) (MkWorld cooked [] [] [] [] true []) in
  fst (select_select [sys_stdin] (Some 0%float) st)
  = Returns ([sys_stdin], [], [])
  /\ fst (read linux st) = Blocks
  /\ fst (read linux (keys_arrive [195; 169]%N opened))
     = Returns (Some [233%N])
  /\ fst (read windows st) = Raises UnicodeDecodeError
  /\ tty_queue (env at_end) = []
  /\ fst (read linux at_end) = Returns (Some []).
Proof. cbv zeta. repeat split; vm_compute; reflexivity. Qed.

(** *** Closing without a snapshot *)









End KeyReaderProofs.

(** ** More on [wait_for_enter] and on the example that calls it *)

Module MinimumIntervalMore.
Import MinimumInterval MinimumIntervalMain MinimumIntervalProofs.

Lemma length_zero_empty (t : string) :
  (String.length t =? 0)%nat = true <-> t = "".
Proof.
  destruct t; cbn; split; intros H; try reflexivity; discriminate H.
Qed.

(** One call, read off its result: the lines it read, those it dropped,
    the one it returned. *)
Lemma wait_for_enter_spec prompt mi w r w' :
  wait_for_enter prompt mi w = (r, w') ->
  exists consumed,
    stdin w = consumed ++ stdin w'
    /\ input_time w' = Some (stamped consumed (init_attr (input_time w)))
    /\ match r with
       | Returns t =>
           stdout w' = stdout w ++ repeat prompt (List.length consumed)
           /\ exists rejected s,
               consumed = rejected ++ [s] /\ t = text s
               /\ Forall (fun x => text x = "") rejected
               /\ accepts (stamped rejected (init_attr (input_time w)))
                          (text s) (stamp s) mi = true
       | Raises e =>
           e = EOFError /\ stdin w' = []
           /\ Forall (fun x => text x = "") consumed
           /\ stdout w'
              = stdout w ++ repeat prompt (S (List.length consumed))
       | Blocks => False
       end.
Proof.
  unfold wait_for_enter. intros H. apply loop_spec in H.
  destruct H as (consumed & Hpend & Htime & Hdec & Hr).
  exists consumed. split; [exact Hpend|]. split; [exact Htime|].
  destruct r as [t|e|]; [| |exact Hr].
  - destruct Hr as (Hout & rejected & s & Hc & Ht).
    split; [exact Hout|]. exists rejected, s.
    split; [exact Hc|]. split; [exact Ht|]. split.
    + apply Forall_forall. intros x Hx.
      apply in_split in Hx. destruct Hx as (l1 & l2 & ->).
      apply (rejected_lines_are_empty
               (stamped l1 (init_attr (input_time w))) _ (stamp x) mi).
      rewrite (Hdec l1 x (l2 ++ [s])).
      * now destruct l2.
      * rewrite Hc, <- app_assoc. reflexivity.
    + rewrite (Hdec rejected s []); [reflexivity | exact Hc].
  - destruct Hr as (He & Hin & Hout).
    split; [exact He|]. split; [exact Hin|]. split; [|exact Hout].
    apply Forall_forall. intros x Hx.
    apply in_split in Hx. destruct Hx as (l1 & l2 & Hc).
    apply (rejected_lines_are_empty
             (stamped l1 (init_attr (input_time w))) _ (stamp x) mi).
    rewrite (Hdec l1 x l2 Hc). now destruct l2.
Qed.

(** *** What a call reads, drops and returns *)

(** X1: a call that returns has dropped nothing but empty lines: the
    input it was given is some empty lines, then the line whose text it
    returns, then exactly what it leaves unread; and the attribute holds
    the time of the returned line. *)
Theorem only_empty_lines_are_dropped prompt mi w t w' :
  wait_for_enter prompt mi w = (Returns t, w') ->
  exists rejected s,
    stdin w = rejected ++ s :: stdin w'
    /\ t = text s
    /\ Forall (fun x => text x = "") rejected
    /\ input_time w' = Some (Some (stamp s)).
Proof.
  intros H. apply wait_for_enter_spec in H.
  destruct H as (consumed & Hpend & Htime & _ & rejected & s & Hc & Ht
                 & Hall & _).
  exists rejected, s. subst consumed.
  rewrite <- app_assoc in Hpend. rewrite stamped_snoc in Htime.
  now repeat split.
Qed.

Lemma only_empty_lines_are_dropped_witness :
  exists rejected s,
    [Submission "" 0.2%float; Submission "hi" 0.3%float;
     Submission "" 0.4%float]
    = rejected ++ s :: [Submission "" 0.4%float]
    /\ "hi" = text s
    /\ Forall (fun x => text x = "") rejected
    /\ Some (Some 0.3%float) = Some (Some (stamp s)).
Proof.
  exact (only_empty_lines_are_dropped "" 0.8%float
           (World [Submission "" 0.2%float; Submission "hi" 0.3%float;
                   Submission "" 0.4%float] [] (Some (Some 0%float)))
           "hi"
           (World [Submission "" 0.4%float] [""; ""]
                  (Some (Some 0.3%float)))
           eq_refl).
Defined.

(** X3: a non-empty line in the input makes the call return, and the call
    never reads beyond the first such line: all that follows it is left
    for the next call. *)
Theorem never_reads_past_nonempty_line prompt mi w pre s post :
  stdin w = pre ++ s :: post ->
  text s <> "" ->
  exists t w' unread,
    wait_for_enter prompt mi w = (Returns t, w')
    /\ stdin w' = unread ++ post.
Proof.
  unfold wait_for_enter. intros -> Hs.
  generalize (stdout w) as out, (init_attr (input_time w)) as attr.
  induction pre as [|x pre IH]; intros out attr; cbn [app loop].
  - replace (accepts attr (text s) (stamp s) mi) with true.
    + exists (text s), (World post (out ++ [prompt]) (Some (Some (stamp s)))),
        []. now split.
    + unfold accepts. destruct attr; [|reflexivity].
      destruct (text s); [congruence | reflexivity].
  - destruct (accepts attr (text x) (stamp x) mi).
    + exists (text x),
        (World (pre ++ s :: post) (out ++ [prompt]) (Some (Some (stamp x)))),
        (pre ++ [s]).
      split; [reflexivity|]. cbn [stdin]. rewrite <- app_assoc. reflexivity.
    + apply IH.
Qed.

Lemma never_reads_past_nonempty_line_witness :
  exists t w' unread,
    wait_for_enter "" 0.8%float
      (World [Submission "" 0.1%float; Submission "go" 0.2%float;
              Submission "next" 0.3%float] [] (Some (Some 0%float)))
    = (Returns t, w')
    /\ stdin w' = unread ++ [Submission "next" 0.3%float].
Proof.
  apply (never_reads_past_nonempty_line "" 0.8%float
           (World [Submission "" 0.1%float; Submission "go" 0.2%float;
                   Submission "next" 0.3%float] [] (Some (Some 0%float)))
           [Submission "" 0.1%float] (Submission "go" 0.2%float)
           [Submission "next" 0.3%float]).
  - reflexivity.
  - cbn. discriminate.
Defined.

Lemma loop_ignores_prompt mi pending :
  forall prompt1 prompt2 out1 out2 attr,
    let a := loop prompt1 mi pending out1 attr in
    let b := loop prompt2 mi pending out2 attr in
    fst a = fst b
    /\ stdin (snd a) = stdin (snd b)
    /\ input_time (snd a) = input_time (snd b).
Proof.
  induction pending as [|s rest IH]; intros prompt1 prompt2 out1 out2 attr;
    cbn [loop].
  - now repeat split.
  - destruct (accepts attr (text s) (stamp s) mi).
    + now repeat split.
    + apply IH.
Qed.

(** X4: the prompt and what was printed before only show on standard
    output: two calls that differ in nothing else return the same text (or
    both raise), leave the same input unread and the same timestamp. *)
Theorem prompt_only_reaches_stdout prompt1 prompt2 mi pending out1 out2 attr :
  let a := wait_for_enter prompt1 mi (World pending out1 attr) in
  let b := wait_for_enter prompt2 mi (World pending out2 attr) in
  fst a = fst b
  /\ stdin (snd a) = stdin (snd b)
  /\ input_time (snd a) = input_time (snd b).
Proof. apply loop_ignores_prompt. Qed.

(** X5: the prompt is written once for every line the call reads, kept or
    dropped, once more when the input runs out, and nothing else is
    written. *)
Theorem one_prompt_per_read prompt mi w :
  let r := fst (wait_for_enter prompt mi w) in
  let w' := snd (wait_for_enter prompt mi w) in
  stdout w'
  = stdout w
    ++ repeat prompt
         (List.length (stdin w) - List.length (stdin w')
          + if is_return r then 0 else 1).
Proof.
  cbv zeta. destruct (wait_for_enter prompt mi w) as [r w'] eqn:H.
  apply wait_for_enter_spec in H.
  destruct H as (consumed & Hpend & _ & Hr). cbn [fst snd].
  rewrite Hpend, length_app.
  replace (List.length consumed + List.length (stdin w')
           - List.length (stdin w')) with (List.length consumed) by lia.
  destruct r as [t|e|]; cbn [is_return].
  - destruct Hr as (Hout & _). now rewrite Nat.add_0_r.
  - destruct Hr as (_ & _ & _ & Hout). now rewrite Nat.add_1_r.
  - contradiction.
Qed.

(** *** Key repeat *)

Lemma key_repeat_skipped prompt mi burst :
  forall p rest out,
    key_repeat mi p burst = true ->
    loop prompt mi (burst ++ rest) out (Some p)
    = loop prompt mi rest (out ++ repeat prompt (List.length burst))
           (stamped burst (Some p)).
Proof.
  induction burst as [|s burst IH]; intros p rest out H.
  - cbn. now rewrite app_nil_r.
  - cbn [key_repeat] in H. apply andb_prop in H. destruct H as [H Hrest].
    apply andb_prop in H. destruct H as [Hlen Hgap].
    cbn [app]. rewrite loop_reject.
    + rewrite (IH (stamp s) rest _ Hrest). cbn [List.length repeat].
      rewrite <- app_assoc. reflexivity.
    + unfold accepts. apply Nat.eqb_eq in Hlen. rewrite Hlen. cbn.
      now apply negb_true_iff.
Qed.

(** X6: while Enter is held down, nothing comes through.  After an
    attempt at time [p], a run of empty lines each less than
    [minimum_interval] after the one before it is consumed whole, one
    prompt per line, and the call goes on with what follows as if it
    started there; if nothing follows, the call ends with [EOFError]
    however long the run lasted. *)
Theorem key_repeat_is_filtered prompt mi p burst rest out :
  key_repeat mi p burst = true ->
  wait_for_enter prompt mi (World (burst ++ rest) out (Some (Some p)))
  = wait_for_enter prompt mi
      (World rest (out ++ repeat prompt (List.length burst))
             (Some (stamped burst (Some p))))
  /\ (rest = [] ->
      fst (wait_for_enter prompt mi
             (World (burst ++ rest) out (Some (Some p))))
      = Raises EOFError).
Proof.
  intros H. unfold wait_for_enter. cbn [stdin stdout input_time init_attr].
  rewrite (key_repeat_skipped prompt mi burst p rest out H).
  split; [reflexivity|]. now intros ->.
Qed.

(** X6 at work: Enter held for a second and a half, repeating every 0.5,
    with the default interval; the pause before "ok" does not matter. *)
Lemma key_repeat_is_filtered_witness :
  wait_for_enter "> " 0.8%float
    (World [Submission "" 10.5%float; Submission "" 11%float;
            Submission "" 11.5%float; Submission "ok" 20%float]
           [] (Some (Some 10%float)))
  = (Returns "ok", World [] ["> "; "> "; "> "; "> "] (Some (Some 20%float))).
Proof.
  refine (eq_trans
            (proj1 (key_repeat_is_filtered "> " 0.8%float 10%float
                      [Submission "" 10.5%float; Submission "" 11%float;
                       Submission "" 11.5%float]
                      [Submission "ok" 20%float] [] _)) _);
    reflexivity.
Defined.

(** X7: an empty text is only returned after a pause.  If the call
    returns [""] and a timestamp was on record when it was made, then the
    returned line came at least [minimum_interval] after the time [p] on
    record when it was read, which is the time of the line read just
    before it, or the recorded one if it was the first line read. *)
Theorem empty_return_follows_a_pause prompt mi w w' :
  wait_for_enter prompt mi w = (Returns "", w') ->
  has_timestamp w = true ->
  exists rejected s p,
    stdin w = rejected ++ s :: stdin w'
    /\ text s = ""
    /\ stamped rejected (init_attr (input_time w)) = Some p
    /\ (mi <=? stamp s - p)%float = true
    /\ (forall pre s0, rejected = pre ++ [s0] -> p = stamp s0)
    /\ (rejected = [] -> input_time w = Some (Some p)).
Proof.
  intros H Hts. apply wait_for_enter_spec in H.
  destruct H as (consumed & Hpend & _ & _ & rejected & s & Hc & Ht & _
                 & Hacc).
  unfold has_timestamp in Hts.
  destruct (input_time w) as [[p0|]|] eqn:Hin; try discriminate Hts.
  cbn [init_attr] in *.
  assert (Hp : exists p, stamped rejected (Some p0) = Some p
                         /\ (forall pre s0, rejected = pre ++ [s0] ->
                                            p = stamp s0)
                         /\ (rejected = [] -> p = p0)).
  { clear. induction rejected as [|s0 pre _] using rev_ind.
    - exists p0. split; [reflexivity|]. split; [|reflexivity].
      intros [|? ?] ? Heq; discriminate Heq.
    - exists (stamp s0). rewrite stamped_snoc. split; [reflexivity|].
      split.
      + intros pre' s1 Heq. apply app_inj_tail in Heq.
        destruct Heq as [_ ->]. reflexivity.
      + intros Heq. now destruct pre. }
  destruct Hp as (p & Hp & Hlast & Hfirst).
  exists rejected, s, p. subst consumed. rewrite <- app_assoc in Hpend.
  split; [exact Hpend|]. split; [now rewrite <- Ht|].
  split; [exact Hp|]. split.
  - rewrite Hp, <- Ht in Hacc. exact Hacc.
  - split; [exact Hlast|]. intros Hr. now rewrite (Hfirst Hr).
Qed.

Lemma empty_return_follows_a_pause_witness :
  exists rejected s p,
    [Submission "" 0.2%float; Submission "" 1.2%float]
    = rejected ++ s :: []
    /\ text s = ""
    /\ stamped rejected (Some 0%float) = Some p
    /\ (0.8 <=? stamp s - p)%float = true.
Proof.
  destruct (empty_return_follows_a_pause "" 0.8%float
              (World [Submission "" 0.2%float; Submission "" 1.2%float] []
                     (Some (Some 0%float)))
              (World [] [""; ""] (Some (Some 1.2%float)))
              eq_refl eq_refl)
    as (rejected & s & p & H1 & H2 & H3 & H4 & _).
  exists rejected, s, p. now repeat split.
Defined.

(** *** The example loop *)

Lemma echoes_app a b : echoes (a ++ b) = echoes a ++ echoes b.
Proof. apply filter_app. Qed.

Lemma echoes_prompts n : echoes (repeat default_prompt n) = [].
Proof. induction n as [|n IH]; [reflexivity | exact IH]. Qed.

Lemma echoes_echo t :
  echoes [("You wrote: " ++ t)%string] = [("You wrote: " ++ t)%string].
Proof. unfold echoes. cbn. now destruct t. Qed.

Lemma complaints_app a b :
  complaints (a ++ b) = complaints a ++ complaints b.
Proof. apply filter_app. Qed.

Lemma complaints_prompts n : complaints (repeat default_prompt n) = [].
Proof. induction n as [|n IH]; [reflexivity | exact IH]. Qed.

Lemma complaints_echo t : complaints [("You wrote: " ++ t)%string] = [].
Proof. reflexivity. Qed.

Lemma nonempty_texts_app a b :
  nonempty_texts (a ++ b) = nonempty_texts a ++ nonempty_texts b.
Proof. unfold nonempty_texts. now rewrite filter_app, map_app. Qed.

Lemma nonempty_texts_of_empty l :
  Forall (fun x => text x = "") l -> nonempty_texts l = [].
Proof.
  induction 1 as [|x l Hx _ IH]; [reflexivity|].
  unfold nonempty_texts, is_empty in *. cbn. now rewrite Hx.
Qed.

Lemma nonempty_texts_one s :
  nonempty_texts [s]
  = if (String.length (text s) =? 0)%nat then [] else [text s].
Proof.
  unfold nonempty_texts, is_empty. cbn.
  now destruct (String.length (text s) =? 0)%nat.
Qed.

Lemma filter_is_empty_one s :
  filter is_empty [s]
  = if (String.length (text s) =? 0)%nat then [s] else [].
Proof. reflexivity. Qed.

(** The example from any state: it ends with [EOFError] once the input is
    used up, and until then echoes the non-empty lines. *)
Lemma main_runs fuel :
  forall w,
    List.length (stdin w) < fuel ->
    exists w',
      main fuel w = Some (Raises EOFError, w')
      /\ stdin w' = []
      /\ echoes (stdout w')
         = echoes (stdout w)
           ++ map (String.append "You wrote: ") (nonempty_texts (stdin w))
      /\ List.length (complaints (stdout w'))
         <= List.length (complaints (stdout w))
            + List.length (filter is_empty (stdin w)).
Proof.
  induction fuel as [|fuel IH]; intros w Hlen; [lia|]. cbn [main].
  destruct (wait_for_enter default_prompt default_minimum_interval w)
    as [r w1] eqn:H.
  apply wait_for_enter_spec in H.
  destruct H as (consumed & Hpend & _ & Hr).
  destruct r as [t|e|]; [| |contradiction].
  - destruct Hr as (Hout & rejected & s & Hc & Ht & Hall & _).
    assert (Hlen1 : List.length (stdin w1) < fuel).
    { rewrite Hpend, Hc, !length_app in Hlen. cbn in Hlen. lia. }
    rewrite Hpend, Hc, !nonempty_texts_app, !filter_app, !length_app.
    rewrite (nonempty_texts_of_empty rejected Hall).
    destruct (String.length t =? 0)%nat eqn:Ht0.
    + destruct (IH (print "You didn't write anything!" w1) Hlen1)
        as (w' & Hmain & Hin & Hecho & Hcomp).
      exists w'. split; [exact Hmain|]. split; [exact Hin|].
      cbn [print stdin stdout] in Hecho, Hcomp. split.
      * rewrite Hecho, Hout, !echoes_app, echoes_prompts.
        rewrite nonempty_texts_one, <- Ht, Ht0. cbn.
        now rewrite !app_nil_r.
      * rewrite Hout, !complaints_app, complaints_prompts, !length_app
          in Hcomp.
        rewrite filter_is_empty_one, <- Ht, Ht0.
        cbn in Hcomp |- *. lia.
    + destruct (IH (print ("You wrote: " ++ t)%string w1) Hlen1)
        as (w' & Hmain & Hin & Hecho & Hcomp).
      exists w'. split; [exact Hmain|]. split; [exact Hin|].
      cbn [print stdin stdout] in Hecho, Hcomp. split.
      * rewrite Hecho, Hout, !echoes_app, echoes_prompts.
        rewrite nonempty_texts_one, <- Ht, Ht0. cbn [map app].
        rewrite echoes_echo, app_nil_r, <- !app_assoc. reflexivity.
      * rewrite Hout, !complaints_app, complaints_prompts, complaints_echo,
          !length_app in Hcomp.
        cbn in Hcomp |- *. lia.
  - destruct Hr as (-> & Hin & Hall & Hout).
    exists w1. split; [reflexivity|]. split; [exact Hin|].
    rewrite Hin, app_nil_r in Hpend. subst consumed.
    rewrite Hout, echoes_app, echoes_prompts, complaints_app,
      complaints_prompts, (nonempty_texts_of_empty _ Hall), !app_nil_r.
    split; [reflexivity | lia].
Qed.

(** X8: the example under [__main__] never ends by itself: on any finite
    input it stops with [EOFError] after reading all of it, within one
    call more than there are lines.  What it prints with "You wrote: " is
    exactly the non-empty lines of the input, each once and in their
    order, and it complains about an empty text at most once per empty
    line. *)
Theorem main_echoes_every_nonempty_line pending attr fuel :
  List.length pending < fuel ->
  exists w',
    main fuel (World pending [] attr) = Some (Raises EOFError, w')
    /\ stdin w' = []
    /\ echoes (stdout w')
       = map (String.append "You wrote: ") (nonempty_texts pending)
    /\ List.length (complaints (stdout w'))
       <= List.length (filter is_empty pending).
Proof.
  intros Hlen.
  destruct (main_runs fuel (World pending [] attr) Hlen)
    as (w' & Hmain & Hin & Hecho & Hcomp).
  exists w'. now repeat split.
Qed.

(** X8 at work: a first empty line, a repeat of it, a text twice in quick
    succession, and a late empty line. *)
Lemma main_echoes_every_nonempty_line_witness :
  exists w',
    main 6 (fresh [Submission "" 0%float; Submission "" 0.1%float;
                   Submission "a" 0.2%float; Submission "a" 0.3%float;
                   Submission "" 5%float])
    = Some (Raises EOFError, w')
    /\ stdin w' = []
    /\ echoes (stdout w') = ["You wrote: a"; "You wrote: a"]
    /\ List.length (complaints (stdout w')) <= 3.
Proof.
  apply (main_echoes_every_nonempty_line
           [Submission "" 0%float; Submission "" 0.1%float;
            Submission "a" 0.2%float; Submission "a" 0.3%float;
            Submission "" 5%float] None 6).
  cbn. lia.
Defined.

End MinimumIntervalMore.

(** ** More on [KeyReader] and on the example that polls it *)

Module KeyReaderMore.
Import KeyReader KeyReaderMain KeyReaderProofs.
Local Open Scope py_scope.

Arguments CHUNK_SIZE : simpl never.
Arguments fetch : simpl never.
Arguments utf8_decode : simpl never.

(** One [read] on the POSIX path when something is in the operating
    system's queue, every byte there is below 128 and the decoder holds
    nothing: it returns the oldest character not handed out yet and
    changes nothing else. *)
Lemma read_posix_step h st :
  is_win32 h = false ->
  stdin_partial (env st) = [] ->
  Forall (fun b => (b < 128)%N) (tty_queue (env st)) ->
  tty_queue (env st) <> [] ->
  exists c st',
    read h st = (Returns (Some [c]), st')
    /\ pending (env st) = c :: pending (env st')
    /\ self st' = self st
    /\ tty_attrs (env st') = tty_attrs (env st)
    /\ stdout (env st') = stdout (env st)
    /\ stdin_partial (env st') = []
    /\ stdin_eof (env st') = stdin_eof (env st)
    /\ Forall (fun b => (b < 128)%N) (tty_queue (env st')).
Proof.
  intros Hp Hpa Hall Hq. rewrite (read_posix_eq h st Hp). unfold readable.
  destruct st as [k [a q b out p e wt]].
  cbn [env tty_queue stdin_partial] in *. subst p.
  destruct q as [|c0 q]; [congruence|]. clear Hq.
  unfold_py. unfold pending. cbn.
  destruct b as [|c held].
  - rewrite (fetch_ascii _ c0 q e Hall). cbn.
    eexists _, _. split; [reflexivity|]. cbn.
    rewrite firstn_skipn. repeat split.
    apply Forall_skipn_lt. now inversion Hall.
  - cbn. eexists _, _. split; [reflexivity|]. now cbn.
Qed.

(** X9: on the POSIX path [read] never loses, repeats or reorders a key
    that sends bytes below 128.  When the input is still open, the
    decoder holds no unfinished character and every byte waiting in the
    operating system's queue is below 128, any number of calls in a row
    return normally, and the characters they return, followed by what is
    still pending afterwards (in the text stream, then in the operating
    system's queue), are exactly what was pending before; the terminal's
    mode, the reader and the output are untouched. *)
Theorem reads_keep_order h n :
  is_win32 h = false ->
  forall st,
    stdin_partial (env st) = [] ->
    stdin_eof (env st) = false ->
    Forall (fun b => (b < 128)%N) (tty_queue (env st)) ->
    exists values st',
      reads h n st = (Returns values, st')
      /\ List.length values = n
      /\ somes values ++ pending (env st') = pending (env st)
      /\ self st' = self st
      /\ tty_attrs (env st') = tty_attrs (env st)
      /\ stdout (env st') = stdout (env st).
Proof.
  intros Hp. induction n as [|n IH]; intros st Hpa He Hall; cbn [reads].
  - exists [], st. now repeat split.
  - unfold bind at 1.
    destruct (tty_queue (env st)) as [|c0 q0] eqn:Hq.
    + rewrite (read_nothing_pending h st Hq) by now right.
      destruct (IH st Hpa He) as (vs & st' & Hr & Hlen & Hpend & Hrest).
      { now rewrite Hq. }
      unfold bind at 1. rewrite Hr.
      exists (None :: vs), st'. cbn [List.length somes flat_map app].
      split; [reflexivity|]. split; [now rewrite Hlen|].
      split; [exact Hpend | exact Hrest].
    + destruct (read_posix_step h st Hp Hpa) as
        (c & st1 & Hr1 & Hp1 & Hs1 & Ha1 & Ho1 & Hpa1 & He1 & Hall1).
      { now rewrite Hq. }
      { rewrite Hq. discriminate. }
      rewrite Hr1.
      destruct (IH st1 Hpa1) as (vs & st' & Hr & Hlen & Hpend & Hs & Ha
                                 & Ho).
      { now rewrite He1. }
      { exact Hall1. }
      unfold bind at 1. rewrite Hr.
      exists (Some [c] :: vs), st'. cbn [List.length somes flat_map app].
      split; [reflexivity|]. split; [now rewrite Hlen|].
      split; [|split; [congruence | split; congruence]].
      change (flat_map _ vs) with (somes vs).
      rewrite Hp1, <- Hpend. reflexivity.
Qed.

(** X9 at work: two keys held by the text stream, one by the system. *)
Lemma reads_keep_order_witness :
  exists values st',
    reads linux 2 (State (__init__ false)
                         (World cooked [99%N] [97%N; 98%N] []))
    = (Returns values, st')
    /\ List.length values = 2
    /\ somes values ++ pending (env st') = [97%N; 98%N; 99%N].
Proof.
  destruct (reads_keep_order linux 2 eq_refl
              (State (__init__ false) (World cooked [99%N] [97%N; 98%N] []))
              eq_refl eq_refl)
    as (values & st' & H1 & H2 & H3 & _).
  - repeat constructor.
  - exists values, st'. now repeat split.
Defined.

(** *** What [read] can raise *)

Lemma forallb_false_Exists l :
  forallb (fun b => (b <? 128)%N) l = false ->
  Exists (fun b => (128 <= b)%N) l.
Proof.
  induction l as [|b l IH]; cbn; [discriminate|].
  destruct (b <? 128)%N eqn:Hb; cbn.
  - intros H. right. now apply IH.
  - intros _. left. now apply N.ltb_ge.
Qed.

Lemma forallb_true_Forall l :
  forallb (fun b => (b <? 128)%N) l = true ->
  Forall (fun b => (b < 128)%N) l.
Proof.
  intros H. apply Forall_forall. intros b Hb.
  apply N.ltb_lt. revert b Hb. now apply forallb_forall.
Qed.

(** X10: [read] raises [UnicodeDecodeError] only over a byte of 128 or
    more or an unfinished character: whenever it does, either the
    decoder of the text stream was holding the beginning of a character
    or a byte of 128 or more was waiting, so it is never raised while
    every waiting byte is below 128 and the decoder holds nothing.  On
    the win32 path that byte is the one [getch] fetched; it is then gone
    from the queue, the bytes behind it are still there. *)
Theorem read_raises_only_on_undecodable_byte h st :
  fst (read h st) = Raises UnicodeDecodeError ->
  (stdin_partial (env st) <> []
   \/ Exists (fun b => (128 <= b)%N) (tty_queue (env st)))
  /\ (is_win32 h = true ->
      exists b q,
        tty_queue (env st) = b :: q
        /\ (128 <= b)%N
        /\ tty_queue (env (snd (read h st))) = q).
Proof.
  destruct (is_win32 h) eqn:Hw.
  - rewrite (read_win32_eq h st Hw).
    destruct (tty_queue (env st)) as [|b q] eqn:Hq; [discriminate|].
    cbn. destruct (b <? 128)%N eqn:Hb; cbn; [discriminate|].
    intros _. apply N.ltb_ge in Hb. split.
    + right. now left.
    + intros _. exists b, q. now repeat split.
  - rewrite (read_posix_eq h st Hw).
    destruct (readable (env st) sys_stdin); [|discriminate].
    destruct st as [k [a q b out p ef wt]]. unfold_py. cbn.
    destruct b as [|c held]; [|discriminate].
    destruct (fetch (S (List.length q)) q p ef) as [? ? ? ?| |? ?|] eqn:Hf;
      cbn; try discriminate.
    intros _. split; [|discriminate].
    destruct p as [|b0 p]; [|left; discriminate]. right.
    destruct (forallb (fun b => (b <? 128)%N) q) eqn:Hall.
    + apply forallb_true_Forall in Hall. exfalso.
      destruct q as [|c q].
      * revert Hf. cbn [List.length]. unfold fetch. cbn.
        destruct ef; discriminate.
      * rewrite (fetch_ascii _ c q ef Hall) in Hf. discriminate.
    + now apply forallb_false_Exists.
Qed.

(** X10 at work: the first byte of an extended key on the win32 path. *)
Lemma read_raises_only_on_undecodable_byte_witness :
  exists b q,
    [224%N; 72%N] = b :: q
    /\ (128 <= b)%N
    /\ tty_queue
         (env (snd (read windows
                      (State (__init__ false)
                             (World cooked [224%N; 72%N] [] [])))))
       = q.
Proof.
  exact (proj2 (read_raises_only_on_undecodable_byte windows
           (State (__init__ false) (World cooked [224%N; 72%N] [] []))
           eq_refl) eq_refl).
Defined.

(** X11: on the win32 path a series of calls delivers the bytes below 128
    one per call and breaks off at the first byte that is not: with more
    calls than there are bytes before it, the series raises
    [UnicodeDecodeError], that byte and all before it are consumed, and
    what came after it stays in the queue. *)
Theorem reads_win32_stop_at_undecodable_byte h n before b after :
  is_win32 h = true ->
  Forall (fun x => (x < 128)%N) before ->
  (128 <= b)%N ->
  List.length before < n ->
  forall st,
    tty_queue (env st) = before ++ b :: after ->
    reads h n st
    = (Raises UnicodeDecodeError,
       State (self st) (with_queue (env st) after)).
Proof.
  intros Hw Hall Hb. revert n.
  induction Hall as [|x before Hx Hall IH]; intros n Hn st Hq;
    (destruct n as [|n]; [cbn in Hn; lia|]); cbn [reads];
    unfold bind at 1; rewrite (read_win32_eq h st Hw), Hq; cbn [app].
  - apply N.ltb_ge in Hb. now rewrite Hb.
  - apply N.ltb_lt in Hx. rewrite Hx. cbn in Hn.
    unfold bind at 1. rewrite (IH n) by (cbn; first [lia | reflexivity]).
    reflexivity.
Qed.

Lemma reads_win32_stop_at_undecodable_byte_witness :
  reads windows 3
    (State (__init__ false) (World cooked [97%N; 224%N; 72%N] [] []))
  = (Raises UnicodeDecodeError,
     State (__init__ false) (World cooked [72%N] [] [])).
Proof.
  apply (reads_win32_stop_at_undecodable_byte windows 3 [97%N] 224%N
           [72%N] eq_refl).
  - repeat constructor.
  - discriminate.
  - cbn. lia.
  - reflexivity.
Defined.

(** *** What [open] and [close] do to the terminal *)

Lemma list_assign_some l : forall i v,
  i < List.length l -> exists l', list_assign l i v = Some l'.
Proof.
  induction l as [|x l IH]; intros i v Hi; cbn in Hi; [lia|].
  destruct i as [|i]; cbn.
  - now eexists.
  - destruct (IH i v) as [l' ->]; [lia|]. now eexists.
Qed.

Lemma list_assign_spec l : forall i v l',
  list_assign l i v = Some l' ->
  nth_error l' i = Some v
  /\ List.length l' = List.length l
  /\ forall j, j <> i -> nth_error l' j = nth_error l j.
Proof.
  induction l as [|x l IH]; intros i v l' H; cbn in H; [discriminate|].
  destruct i as [|i].
  - injection H as <-. repeat split. intros [|j] Hj; [congruence|].
    reflexivity.
  - destruct (list_assign l i v) as [l1|] eqn:Hl; [|discriminate].
    injection H as <-. destruct (IH i v l1 Hl) as (Hn & Hlen & Hother).
    cbn. repeat split; [exact Hn | now rewrite Hlen |].
    intros [|j] Hj; [reflexivity|]. apply Hother. congruence.
Qed.

(** [open] on the POSIX path when everything goes well. *)
Lemma open_posix_exact h k w cc1 cc2 :
  is_win32 h = false -> stdin_isatty h = true ->
  list_assign (cc (tty_attrs w)) (VMIN (consts h)) 1 = Some cc1 ->
  list_assign cc1 (VTIME (consts h)) 0 = Some cc2 ->
  open h (State k w)
  = (Returns tt,
     State (Reader (verbose k) (Some (tty_attrs w)))
           (MkWorld (Attrs (iflag (tty_attrs w)) (oflag (tty_attrs w))
                           (cflag (tty_attrs w))
                           (Z.land (lflag (tty_attrs w))
                              (Z.lnot (Z.lor (ECHO (consts h))
                                             (ICANON (consts h)))))
                           (ispeed (tty_attrs w)) (ospeed (tty_attrs w))
                           cc2)
                    [] (stdin_buffer w)
                    (stdout w ++ if verbose k
                                 then ["KeyReader: Opening..."]
                                 else [])
                    (stdin_partial w) (stdin_eof w) (waited w))).
Proof.
  intros Hp Htty H1 H2. destruct k as [v o]. unfold_py. cbn.
  destruct v; repeat (progress (rewrite ?Hp, ?Htty, ?H1, ?H2; cbn));
    rewrite ?app_nil_r; reflexivity.
Qed.

(** A returned [open] on the POSIX path went well. *)
Lemma open_posix_returned h st st1 :
  is_win32 h = false ->
  open h st = (Returns tt, st1) ->
  stdin_isatty h = true
  /\ exists cc1 cc2,
      list_assign (cc (tty_attrs (env st))) (VMIN (consts h)) 1 = Some cc1
      /\ list_assign cc1 (VTIME (consts h)) 0 = Some cc2.
Proof.
  intros Hp. destruct st as [[v o] w]. unfold_py. cbn. rewrite Hp. cbn.
  destruct v; cbn; destruct (stdin_isatty h); cbn; try discriminate;
    destruct (list_assign (cc (tty_attrs w)) (VMIN (consts h)) 1)
      as [cc1|]; cbn; try discriminate;
    destruct (list_assign cc1 (VTIME (consts h)) 0) as [cc2|] eqn:H2; cbn;
    try discriminate; intros _; (split; [reflexivity|]);
    exists cc1, cc2; now split.
Qed.

(** Both on the win32 path. *)
Lemma open_win32_exact h k w :
  is_win32 h = true ->
  open h (State k w)
  = (Returns tt,
     State k (with_stdout w (stdout w ++ if verbose k
                                         then ["KeyReader: Opening..."]
                                         else []))).
Proof.
  intros Hw. destruct k as [v o], w. unfold_py. cbn.
  rewrite Hw. destruct v; cbn; rewrite ?app_nil_r; reflexivity.
Qed.

Lemma close_win32_exact h k w :
  is_win32 h = true ->
  close h (State k w)
  = (Returns tt,
     State k (with_stdout w (stdout w ++ if verbose k
                                         then ["KeyReader: Closing..."]
                                         else []))).
Proof.
  intros Hw. destruct k as [v o], w. unfold_py. cbn.
  rewrite Hw. destruct v; cbn; rewrite ?app_nil_r; reflexivity.
Qed.

(** X12: what [open] makes of the terminal on the POSIX path, when
    standard input is a terminal whose control characters include the
    slots [VMIN] and [VTIME].  It returns, keeps the mode it found as the
    snapshot, and the new mode differs from that one only so: in the
    local flags the bits of [ECHO] and [ICANON] are cleared and every
    other bit is as before, [cc[VTIME]] is 0 and [cc[VMIN]] is 1, the
    other control characters and all other fields are the same.  Keys the
    operating system was holding are thrown away; what the text stream
    holds stays. *)
Theorem open_sets_cbreak h st :
  is_win32 h = false ->
  stdin_isatty h = true ->
  VMIN (consts h) < List.length (cc (tty_attrs (env st))) ->
  VTIME (consts h) < List.length (cc (tty_attrs (env st))) ->
  let a := tty_attrs (env st) in
  let st1 := snd (open h st) in
  let a' := tty_attrs (env st1) in
  fst (open h st) = Returns tt
  /\ old_settings (self st1) = Some a
  /\ (iflag a' = iflag a /\ oflag a' = oflag a /\ cflag a' = cflag a
      /\ ispeed a' = ispeed a /\ ospeed a' = ospeed a)
  /\ (forall i, (0 <= i)%Z ->
                Z.testbit (lflag a') i
                = Z.testbit (lflag a) i
                  && negb (Z.testbit (ECHO (consts h)) i
                           || Z.testbit (ICANON (consts h)) i))
  /\ nth_error (cc a') (VTIME (consts h)) = Some 0%Z
  /\ (VMIN (consts h) <> VTIME (consts h) ->
      nth_error (cc a') (VMIN (consts h)) = Some 1%Z)
  /\ (forall j, j <> VMIN (consts h) -> j <> VTIME (consts h) ->
                nth_error (cc a') j = nth_error (cc a) j)
  /\ tty_queue (env st1) = []
  /\ stdin_buffer (env st1) = stdin_buffer (env st).
Proof.
  intros Hp Htty Hmin Htime. cbv zeta.
  destruct st as [k w]. cbn [env] in *.
  destruct (list_assign_some (cc (tty_attrs w)) (VMIN (consts h)) 1 Hmin)
    as [cc1 H1].
  destruct (list_assign_spec _ _ _ _ H1) as (Hn1 & Hl1 & Ho1).
  assert (Htime1 : VTIME (consts h) < List.length cc1) by now rewrite Hl1.
  destruct (list_assign_some cc1 (VTIME (consts h)) 0 Htime1) as [cc2 H2].
  destruct (list_assign_spec _ _ _ _ H2) as (Hn2 & Hl2 & Ho2).
  rewrite (open_posix_exact h k w cc1 cc2 Hp Htty H1 H2).
  cbn. repeat split.
  - intros i Hi. rewrite Z.land_spec, Z.lnot_spec, Z.lor_spec by exact Hi.
    reflexivity.
  - exact Hn2.
  - intros Hne. rewrite Ho2 by exact Hne. exact Hn1.
  - intros j Hj1 Hj2. rewrite Ho2 by exact Hj2. now apply Ho1.
Qed.

(** X12 at work: a Linux terminal in its usual line mode, with a key
    typed ahead. *)
Lemma open_sets_cbreak_witness :
  let st := State (__init__ false) (World cooked [113%N] [] []) in
  fst (open linux st) = Returns tt
  /\ old_settings (self (snd (open linux st))) = Some cooked
  /\ Z.testbit (lflag (tty_attrs (env (snd (open linux st))))) 3 = false
  /\ Z.testbit (lflag (tty_attrs (env (snd (open linux st))))) 1 = false
  /\ tty_queue (env (snd (open linux st))) = [].
Proof.
  cbv zeta.
  assert (H := open_sets_cbreak linux
                 (State (__init__ false) (World cooked [113%N] [] []))
                 eq_refl eq_refl).
  cbn [consts linux linux_consts VMIN VTIME env tty_attrs cc cooked World
       List.length] in H.
  specialize (H ltac:(lia) ltac:(lia)).
  destruct H as (H1 & H2 & _ & Hbits & _ & _ & _ & H3 & _).
  split; [exact H1|]. split; [exact H2|].
  split; [|split; [|exact H3]].
  - rewrite (Hbits 3%Z) by lia. reflexivity.
  - rewrite (Hbits 1%Z) by lia. reflexivity.
Defined.

(** X13: [open] is not reentrant.  A second [open] without a [close] in
    between takes the mode the first one set as its snapshot, so a
    [close] after it puts the terminal back into that mode; and that is
    not the mode the terminal had in the beginning whenever a bit of
    [ECHO] or [ICANON] was set in it, as in a terminal's usual line
    mode: the original snapshot is lost. *)
Theorem second_open_forgets_original_mode h st st1 st2 :
  is_win32 h = false ->
  open h st = (Returns tt, st1) ->
  open h st1 = (Returns tt, st2) ->
  old_settings (self st1) = Some (tty_attrs (env st))
  /\ old_settings (self st2) = Some (tty_attrs (env st1))
  /\ (forall w3,
         fst (close h (State (self st2) w3)) = Returns tt
         /\ tty_attrs (env (snd (close h (State (self st2) w3))))
            = tty_attrs (env st1))
  /\ (forall i,
         (0 <= i)%Z ->
         Z.testbit (lflag (tty_attrs (env st))) i = true ->
         Z.testbit (ECHO (consts h)) i || Z.testbit (ICANON (consts h)) i
         = true ->
         forall w3,
           tty_attrs (env (snd (close h (State (self st2) w3))))
           <> tty_attrs (env st)).
Proof.
  intros Hp H1 H2.
  pose proof (open_posix h st Hp) as Ha. rewrite H1 in Ha.
  pose proof (open_posix h st1 Hp) as Hb. rewrite H2 in Hb.
  destruct Ha as [Ha _], Hb as [Hb Htty].
  assert (Hclose : forall w3,
             fst (close h (State (self st2) w3)) = Returns tt
             /\ tty_attrs (env (snd (close h (State (self st2) w3))))
                = tty_attrs (env st1)).
  { intros w3.
    rewrite (close_posix_exact h (self st2) _ w3 Hp Htty Hb). now split. }
  split; [exact Ha|]. split; [exact Hb|]. split; [exact Hclose|].
  intros i Hi Hset Hbit w3. destruct (Hclose w3) as [_ ->].
  destruct (open_posix_returned h st st1 Hp H1) as (_ & cc1 & cc2 & Hc1
                                                    & Hc2).
  destruct st as [k w].
  rewrite (open_posix_exact h k w cc1 cc2 Hp Htty Hc1 Hc2) in H1.
  injection H1 as <-. cbn [env tty_attrs] in *. intros Heq.
  apply (f_equal lflag) in Heq. cbn [lflag] in Heq.
  apply (f_equal (fun z => Z.testbit z i)) in Heq.
  rewrite Z.land_spec, Z.lnot_spec, Z.lor_spec, Hset, Hbit in Heq
    by exact Hi.
  discriminate Heq.
Qed.

(** X13 at work: on Linux, after two opens and a close the terminal is
    not back in its line mode ([ECHO] is bit 3 of the local flags). *)
Lemma second_open_forgets_original_mode_witness :
  let st := State (__init__ false) (World cooked [] [] []) in
  let st1 := snd (open linux st) in
  let st2 := snd (open linux st1) in
  tty_attrs (env (snd (close linux st2))) <> cooked.
Proof.
  cbv zeta.
  pose (st := State (__init__ false) (World cooked [] [] [])).
  pose (st1 := snd (open linux st)).
  pose (st2 := snd (open linux st1)).
  destruct (second_open_forgets_original_mode linux st st1 st2
              eq_refl eq_refl eq_refl) as (_ & _ & _ & H).
  exact (H 3%Z ltac:(lia) eq_refl eq_refl (env st2)).
Defined.

(** X14: when standard input is no terminal, [open] on the POSIX path
    raises [termios.error] before it has saved or changed anything, and
    a [with] statement then raises it too without running its body or
    [__exit__].  The reader, which was never bound to a name, is
    released: its [__del__] calls [close], which prints the closing line
    of a verbose reader and fails for want of a snapshot, and that
    failure is ignored.  Nothing else happens. *)
Theorem open_needs_a_terminal h :
  is_win32 h = false ->
  stdin_isatty h = false ->
  (forall k w,
      open h (State k w)
      = (Raises termios_error,
         State k (with_stdout w (stdout w ++ if verbose k
                                             then ["KeyReader: Opening..."]
                                             else []))))
  /\ (forall (A : Type) v
             (body : KeyReader -> world -> outcome A * world) w,
         with_KeyReader h v body w
         = (Raises termios_error,
            State (__init__ v)
                  (with_stdout w
                     (stdout w ++ if v then ["KeyReader: Opening...";
                                             "KeyReader: Closing..."]
                                  else [])))).
Proof.
  intros Hp Htty.
  assert (Hopen : forall k w,
             open h (State k w)
             = (Raises termios_error,
                State k (with_stdout w
                           (stdout w ++ if verbose k
                                        then ["KeyReader: Opening..."]
                                        else [])))).
  { intros [v o] w. destruct w. unfold_py. cbn. rewrite Hp, Htty.
    destruct v; cbn; rewrite ?app_nil_r; reflexivity. }
  split; [exact Hopen|]. intros A v body w.
  unfold with_KeyReader, __enter__. rewrite Hopen.
  unfold release, attempt, __del__.
  rewrite (close_posix_unset h (__init__ v) _ Hp eq_refl).
  destruct w, v; cbn; rewrite <- ?app_assoc, ?app_nil_r; reflexivity.
Qed.

(** X14 at work: Linux with standard input coming from a pipe. *)
Lemma open_needs_a_terminal_witness :
  with_KeyReader (Host "linux" false linux_consts) true
    (fun _ w => (Returns tt, w)) (World cooked [97%N] [] [])
  = (Raises termios_error,
     State (__init__ true)
           (World cooked [97%N] []
                  ["KeyReader: Opening..."; "KeyReader: Closing..."])).
Proof.
  exact (proj2 (open_needs_a_terminal (Host "linux" false linux_consts)
                  eq_refl eq_refl)
           unit true (fun _ w => (Returns tt, w))
           (World cooked [97%N] [] [])).
Defined.

(** X15: a [close] that returns on the POSIX path has thrown away no
    input (neither in the operating system's queue nor in the text
    stream) and has not touched the reader, which keeps its snapshot; so
    closing again, as [__del__] does when the reader is collected after a
    [with] block, returns as well and leaves the same mode in place. *)
Theorem close_discards_nothing_and_repeats h st st1 :
  is_win32 h = false ->
  close h st = (Returns tt, st1) ->
  tty_queue (env st1) = tty_queue (env st)
  /\ stdin_buffer (env st1) = stdin_buffer (env st)
  /\ self st1 = self st
  /\ old_settings (self st1) = Some (tty_attrs (env st1))
  /\ exists st2,
      __del__ h st1 = (Returns tt, st2)
      /\ tty_attrs (env st2) = tty_attrs (env st1)
      /\ tty_queue (env st2) = tty_queue (env st)
      /\ stdin_buffer (env st2) = stdin_buffer (env st).
Proof.
  intros Hp H. destruct st as [[v o] w].
  assert (Hshape : exists a0, o = Some a0 /\ stdin_isatty h = true).
  { revert H. unfold_py. cbn. rewrite Hp.
    destruct v, o, (stdin_isatty h); cbn; try discriminate;
      intros _; now eexists. }
  destruct Hshape as (a0 & -> & Htty).
  rewrite (close_posix_exact h (Reader v (Some a0)) a0 w Hp Htty eq_refl)
    in H.
  injection H as <-.
  cbn [env self tty_queue stdin_buffer tty_attrs old_settings].
  do 4 (split; [reflexivity|]). unfold __del__.
  rewrite (close_posix_exact h (Reader v (Some a0)) a0 _ Hp Htty eq_refl).
  eexists. split; [reflexivity|]. now cbn.
Qed.

Lemma close_discards_nothing_and_repeats_witness :
  let st := State (Reader false (Some cooked))
                  (World (Attrs 0 0 0 0 0 0 []) [97%N] [98%N] []) in
  tty_queue (env (snd (close linux st))) = [97%N]
  /\ stdin_buffer (env (snd (close linux st))) = [98%N].
Proof.
  cbv zeta.
  destruct (close_discards_nothing_and_repeats linux
              (State (Reader false (Some cooked))
                     (World (Attrs 0 0 0 0 0 0 []) [97%N] [98%N] []))
              (snd (close linux
                      (State (Reader false (Some cooked))
                             (World (Attrs 0 0 0 0 0 0 []) [97%N] [98%N]
                                    []))))
              eq_refl eq_refl) as (H1 & H2 & _).
  split; [exact H1 | exact H2].
Defined.

(** *** The [with] statement *)

(** X16: once [__enter__] has returned, the [with] statement ends the way
    its body ends, on either platform: it returns what the body returns
    and raises what the body raises, [__exit__] neither fails nor
    swallows anything.  The last thing written is the line of a verbose
    reader's [close], and no pending input is lost on the way out. *)
Theorem with_ends_as_its_body h (A : Type) v
        (body : KeyReader -> world -> outcome A * world) w st1 :
  __enter__ h (State (__init__ v) w) = (Returns tt, st1) ->
  let r := fst (body (self st1) (env st1)) in
  let w2 := snd (body (self st1) (env st1)) in
  let final := env (snd (with_KeyReader h v body w)) in
  fst (with_KeyReader h v body w) = r
  /\ (r <> Blocks ->
      stdout final
      = stdout w2 ++ (if v then ["KeyReader: Closing..."] else [])
      /\ tty_queue final = tty_queue w2
      /\ stdin_buffer final = stdin_buffer w2).
Proof.
  intros He. cbv zeta. unfold with_KeyReader. rewrite He.
  unfold __enter__ in He.
  assert (Hv : verbose (self st1) = v).
  { pose proof (verbose_kept h (State (__init__ v) w)) as [Hk _].
    rewrite He in Hk. exact Hk. }
  destruct (body (self st1) (env st1)) as [r w2]. cbn [fst snd].
  unfold __exit__.
  assert (Hclose : exists a',
             close h (State (self st1) w2)
             = (Returns tt,
                State (self st1)
                      (MkWorld a' (tty_queue w2) (stdin_buffer w2)
                               (stdout w2
                                ++ if v then ["KeyReader: Closing..."]
                                   else [])
                               (stdin_partial w2) (stdin_eof w2)
                               (waited w2)))).
  { destruct (is_win32 h) eqn:Hw.
    - exists (tty_attrs w2). rewrite (close_win32_exact h _ _ Hw).
      now rewrite Hv.
    - pose proof (open_posix h (State (__init__ v) w) Hw) as Ho.
      rewrite He in Ho. destruct Ho as [Hold Htty].
      eexists.
      rewrite (close_posix_exact h _ _ w2 Hw Htty Hold).
      now rewrite Hv. }
  destruct Hclose as [a' ->].
  destruct r; cbn; (split; [reflexivity|]); intros Hr;
    [now repeat split | now repeat split | congruence].
Qed.

(** X16 at work: on Linux, a body that reads a key and fails. *)
Lemma with_ends_as_its_body_witness :
  fst (with_KeyReader linux true
         (fun k w => (Raises (Exception "oops") : outcome unit,
                      env (snd (read linux (State k w)))))
         (World cooked [] [] []))
  = Raises (Exception "oops").
Proof.
  exact (proj1 (with_ends_as_its_body linux unit true
                  (fun k w => (Raises (Exception "oops"),
                               env (snd (read linux (State k w)))))
                  (World cooked [] [] [])
                  (snd (__enter__ linux
                          (State (__init__ true) (World cooked [] [] []))))
                  eq_refl)).
Defined.

(** *** The polling loop of the example *)

Lemma key_lines_app show a b :
  key_lines show (a ++ b) = key_lines show a ++ key_lines show b.
Proof. apply map_app. Qed.










End KeyReaderMore.
